(** * Fitness-Health-Tracker: calculation and validation engine

    A shallow embedding of the JavaScript sources
    (unit-converter.js, validation.js, bmi-calculator.js,
    calorie-estimator.js, workout-planner.js, storage.js,
    progress-tracker.js) and the properties of them that the
    specification states.

    Conventions of the embedding.
    - A JS number is an IEEE-754 binary64 value: Rocq's primitive [float].
      Comparisons, [+], [-], [*] and [/] are the primitive operations, so
      NaN, the infinities and the two zeros behave as in JavaScript.
    - A JS string is a [string]; one [ascii] stands for one code unit, so
      the strings covered are those whose code units are below 256.
    - [parseFloat] and [parseInt] begin by converting their argument to a
      string; a raw input of these two functions is therefore given as that
      string (the value of a form field as the application passes it, or
      the text of a number).
    - [new Date().toISOString()] and the generated exercise id are inputs
      of the operations (record [Env]); DOM rendering does not touch the
      plan and is left out. *)

From Stdlib Require Import ZArith Floats String Ascii.
From stdpp Require Import gmap strings list.

Set Warnings "-inexact-float".

Local Open Scope Z_scope.
Local Open Scope string_scope.

(** ** JavaScript numbers *)

Module JsNumber.

(** [𝔽(z)]: the Number value of a mathematical integer (round to nearest,
    ties to even; an integer too large becomes an infinity). *)
Definition of_Z (z : Z) : float :=
  SF2Prim (binary_normalize prec emax z 0 false).

Definition of_nat (n : nat) : float := of_Z (Z.of_nat n).

(** The Number value of [±m × 10^e10], as the numeric value of a decimal
    literal is defined: the exact quotient or product, rounded once. *)
Definition of_decimal (neg : bool) (m : Z) (e10 : Z) : float :=
  match m with
  | Z.pos p =>
      if (0 <=? e10)%Z
      then SF2Prim (binary_normalize prec emax
                      ((if neg then Z.neg p else Z.pos p) * 10 ^ e10) 0 false)
      else SF2Prim (SFdiv prec emax
                      (S754_finite neg p 0)
                      (S754_finite false (Z.to_pos (10 ^ (- e10))) 0))
  | _ => if neg then neg_zero else PrimFloat.zero
  end.

(** [Math.round]: the integer nearest to [x], a tie going towards [+∞];
    NaN, the infinities, the zeros and integers are returned as they are,
    and a negative [x >= -0.5] gives [-0]. *)
Definition Math_round (x : float) : float :=
  match Prim2SF x with
  | S754_finite s m e =>
      if (0 <=? e)%Z then x
      else
        let k := (- e)%Z in
        let sm := if s then Z.neg m else Z.pos m in
        let n := ((2 * sm + 2 ^ k) / 2 ^ (k + 1))%Z in
        if (n =? 0)%Z then (if s then neg_zero else PrimFloat.zero)
        else of_Z n
  | _ => x
  end.

(** [isNaN] on a number. *)
Definition isNaN (x : float) : bool := PrimFloat.is_nan x.

End JsNumber.

(** ** JavaScript strings *)

Module JsString.

Definition code (c : ascii) : N := N_of_ascii c.

(** WhiteSpace and LineTerminator code units below 256: TAB, LF, VT, FF,
    CR, SP and NBSP. *)
Definition is_whitespace (c : ascii) : bool :=
  let n := code c in
  ((9 <=? n) && (n <=? 13))%N || (n =? 32)%N || (n =? 160)%N.

Fixpoint trimStartL (l : list ascii) : list ascii :=
  match l with
  | c :: r => if is_whitespace c then trimStartL r else l
  | [] => []
  end.

Definition trimEndL (l : list ascii) : list ascii :=
  rev (trimStartL (rev l)).

Definition trimStart (s : string) : string :=
  string_of_list_ascii (trimStartL (list_ascii_of_string s)).

(** [String.prototype.trim]. *)
Definition trim (s : string) : string :=
  string_of_list_ascii (trimEndL (trimStartL (list_ascii_of_string s))).

(** Lower-casing of one code unit: A-Z, and the Latin-1 capitals
    U+00C0-U+00DE except the multiplication sign U+00D7. *)
Definition lower (c : ascii) : ascii :=
  let n := code c in
  if ((65 <=? n) && (n <=? 90))%N
     || ((192 <=? n) && (n <=? 222) && negb (n =? 215))%N
  then ascii_of_N (n + 32)
  else c.

(** [String.prototype.toLowerCase]. *)
Fixpoint toLowerCase (s : string) : string :=
  match s with
  | EmptyString => EmptyString
  | String c r => String (lower c) (toLowerCase r)
  end.

Definition is_digit (c : ascii) : bool :=
  ((48 <=? code c) && (code c <=? 57))%N.

Definition digit_value (c : ascii) : Z := Z.of_N (code c) - 48.

(** The value of a hexadecimal digit, if [c] is one. *)
Definition hex_value (c : ascii) : option Z :=
  let n := code c in
  if ((48 <=? n) && (n <=? 57))%N then Some (Z.of_N n - 48)
  else if ((97 <=? n) && (n <=? 102))%N then Some (Z.of_N n - 87)
  else if ((65 <=? n) && (n <=? 70))%N then Some (Z.of_N n - 55)
  else None.

(** The longest prefix of decimal digits, and what follows it. *)
Fixpoint span_digits (l : list ascii) : list ascii * list ascii :=
  match l with
  | c :: r =>
      if is_digit c
      then let '(ds, rest) := span_digits r in (c :: ds, rest)
      else ([], l)
  | [] => ([], [])
  end.

Definition digits_value (ds : list ascii) : Z :=
  fold_left (fun acc c => 10 * acc + digit_value c) ds 0.

(** The value of the longest prefix of hexadecimal digits, [None] when
    the prefix is empty. *)
Fixpoint hex_prefix_value (acc : option Z) (l : list ascii) : option Z :=
  match l with
  | c :: r =>
      match hex_value c with
      | Some d => hex_prefix_value (Some (16 * default 0 acc + d)) r
      | None => acc
      end
  | [] => acc
  end.

(** A leading [+] or [-]: whether it is a minus, and the rest. *)
Definition split_sign (l : list ascii) : bool * list ascii :=
  match l with
  | "+"%char :: r => (false, r)
  | "-"%char :: r => (true, r)
  | _ => (false, l)
  end.

Fixpoint starts_with (p l : list ascii) : bool :=
  match p, l with
  | [], _ => true
  | a :: p', b :: l' => if Ascii.eqb a b then starts_with p' l' else false
  | _ :: _, [] => false
  end.

(** The ExponentPart at the head of [l], when there is one: [e] or [E],
    an optional sign, and at least one digit. *)
Definition exponent_part (l : list ascii) : Z :=
  match l with
  | c :: r =>
      if Ascii.eqb c "e" || Ascii.eqb c "E"
      then
        let '(neg, r') := split_sign r in
        let '(ds, _) := span_digits r' in
        match ds with
        | [] => 0
        | _ => if neg then - digits_value ds else digits_value ds
        end
      else 0
  | [] => 0
  end.

(** The global [parseFloat] on a string: leading white space is skipped,
    the longest prefix that is a StrDecimalLiteral is read, and its
    numeric value is returned; NaN when there is no such prefix. *)
Definition parseFloat (s : string) : float :=
  let '(neg, r) := split_sign (trimStartL (list_ascii_of_string s)) in
  if starts_with (list_ascii_of_string "Infinity") r
  then (if neg then neg_infinity else infinity)
  else
    let '(ip, r1) := span_digits r in
    let '(fp, r2) :=
      match r1 with
      | "."%char :: r' => span_digits r'
      | _ => ([], r1)
      end in
    match ip, fp with
    | [], [] => nan
    | _, _ =>
        JsNumber.of_decimal neg (digits_value (ip ++ fp))
          (exponent_part r2 - Z.of_nat (length fp))
    end.

(** The global [parseInt] on a string, with no radix argument: leading
    white space and a sign are skipped, a [0x] or [0X] prefix selects
    radix 16, and the longest prefix of digits is read; NaN when it is
    empty. *)
Definition parseInt (s : string) : float :=
  let '(neg, r) := split_sign (trimStartL (list_ascii_of_string s)) in
  let mathInt :=
    match r with
    | "0"%char :: x :: r' =>
        if Ascii.eqb x "x" || Ascii.eqb x "X"
        then hex_prefix_value None r'
        else
          let '(ds, _) := span_digits r in
          match ds with [] => None | _ => Some (digits_value ds) end
    | _ =>
        let '(ds, _) := span_digits r in
        match ds with [] => None | _ => Some (digits_value ds) end
    end in
  match mathInt with
  | None => nan
  | Some 0 => if neg then neg_zero else PrimFloat.zero
  | Some n => JsNumber.of_Z (if neg then - n else n)
  end.

End JsString.

Import JsNumber JsString.

(** A JavaScript value, as far as [typeof] and [===] tell values apart. *)
Inductive JsValue : Type :=
  | JsUndefined
  | JsNull
  | JsBoolean (b : bool)
  | JsNum (x : float)
  | JsStr (s : string).

(** [v === s] for a string literal [s]. *)
Definition strict_eq_string (v : JsValue) (s : string) : bool :=
  match v with
  | JsStr t => String.eqb t s
  | _ => false
  end.

(** ** unit-converter.js *)

Module UnitConverter.
Local Open Scope float_scope.

Definition LBS_TO_KG : float := 0.453592.
Definition INCHES_TO_CM : float := 2.54.
Definition CM_TO_INCHES : float := 0.393701.
Definition CM_TO_METERS : float := 100.

Definition poundsToKilograms (pounds : float) : float :=
  pounds * LBS_TO_KG.

Definition kilogramsToPounds (kilograms : float) : float :=
  kilograms / LBS_TO_KG.

Definition feetInchesToCentimeters (feet inches : float) : float :=
  let totalInches := feet * 12 + inches in
  totalInches * INCHES_TO_CM.

Definition centimetersToMeters (centimeters : float) : float :=
  centimeters / CM_TO_METERS.

End UnitConverter.

(** ** validation.js *)

Module Validator.
Local Open Scope float_scope.

(** [isPositiveNumber(value)]; [value] is given as its string. *)
Definition isPositiveNumber (value : string) : bool :=
  let num := parseFloat value in
  negb (isNaN num) && (0 <? num).

Definition isInRange (value : string) (min max : float) : bool :=
  let num := parseFloat value in
  negb (isNaN num) && (min <=? num) && (num <=? max).

(** [isNotEmpty(value)]: a string whose trimmed form is not empty. *)
Definition isNotEmpty (value : JsValue) : bool :=
  match value with
  | JsStr s => (0 <? String.length (trim s))%nat
  | _ => false
  end.

Definition isValidAge (age : string) : bool :=
  isPositiveNumber age && isInRange age 1 150.

Definition isValidWeight (weight : string) : bool :=
  isPositiveNumber weight && isInRange weight 1 500.

Definition isValidHeight (height : string) : bool :=
  isPositiveNumber height && isInRange height 1 300.

End Validator.

(** ** bmi-calculator.js *)

Module BMICalculator.
Import UnitConverter.
Local Open Scope float_scope.

Inductive Category : Type := Underweight | Normal | Overweight | Obese.

Record BMIResult : Type := {
  bmi : float;
  category : Category;
  weightKg : float;
  heightM : float
}.

Definition _determineBMICategory (bmi : float) : Category :=
  if bmi <? 18.5 then Underweight
  else if (18.5 <=? bmi) && (bmi <? 25.0) then Normal
  else if (25.0 <=? bmi) && (bmi <? 30.0) then Overweight
  else Obese.

Definition calculateBMI (weight : float) (weightUnit : string)
    (height : float) (heightUnit : string) (heightInches : float)
    : BMIResult :=
  let weightKg :=
    if String.eqb weightUnit "lbs" then poundsToKilograms weight
    else weight in
  let heightM :=
    if String.eqb heightUnit "ft"
    then centimetersToMeters (feetInchesToCentimeters height heightInches)
    else if String.eqb heightUnit "cm" then centimetersToMeters height
    else height in
  let bmi := weightKg / (heightM * heightM) in
  let category := _determineBMICategory bmi in
  {| bmi := Math_round (bmi * 10) / 10;
     category := category;
     weightKg := weightKg;
     heightM := heightM |}.

End BMICalculator.

(** ** calorie-estimator.js *)

Module CalorieEstimator.
Import UnitConverter.
Local Open Scope float_scope.

Record CalorieResult : Type := {
  bmr : float;
  maintenance : float;
  weightLoss : float;
  weightGain : float
}.

Record Targets : Type := {
  t_maintenance : float;
  t_weightLoss : float;
  t_weightGain : float
}.

Definition _calculateBMR (age : float) (gender : JsValue)
    (weightKg heightCm : float) : float :=
  let baseCalc := (10 * weightKg) + (6.25 * heightCm) - (5 * age) in
  if strict_eq_string gender "male" then baseCalc + 5
  else baseCalc - 161.

(** What reading a property of the object literal [multipliers] gives:
    one of its five own numbers; for a name that the literal inherits
    from [Object.prototype], that built-in member (a function, or for
    [__proto__] the prototype object itself); [undefined] otherwise. *)
Inductive Property : Type :=
  | OwnNumber (x : float)
  | Builtin (name : string)
  | Undefined.

(** The property names of [Object.prototype]. *)
Definition Object_prototype_names : list string :=
  [ "constructor"; "hasOwnProperty"; "isPrototypeOf";
    "propertyIsEnumerable"; "toLocaleString"; "toString"; "valueOf";
    "__proto__"; "__defineGetter__"; "__defineSetter__";
    "__lookupGetter__"; "__lookupSetter__" ].

Definition multipliers : gmap string float :=
  {[ "sedentary" := 1.2;
     "lightly_active" := 1.375;
     "moderately_active" := 1.55;
     "very_active" := 1.725;
     "extra_active" := 1.9 ]}.

(** [multipliers[key]]: own properties first, then the prototype. *)
Definition get_property (key : string) : Property :=
  match multipliers !! key with
  | Some x => OwnNumber x
  | None =>
      if bool_decide (key ∈ Object_prototype_names) then Builtin key
      else Undefined
  end.

(** ToBoolean: a number is truthy unless it is a zero or NaN, an object
    always, [undefined] never. *)
Definition truthy (v : Property) : bool :=
  match v with
  | OwnNumber x => negb (x =? 0) && negb (isNaN x)
  | Builtin _ => true
  | Undefined => false
  end.

(** ToNumber: the built-in members convert through their text
    ([function ...() { [native code] }], [[object Object]]), which is
    not a numeric literal. *)
Definition ToNumber (v : Property) : float :=
  match v with
  | OwnNumber x => x
  | Builtin _ => nan
  | Undefined => nan
  end.

Definition _getActivityMultiplier (activityLevel : string) : Property :=
  let found := get_property activityLevel in
  if truthy found then found else OwnNumber 1.2.

Definition _calculateTargets (bmr : float) (activityMultiplier : Property)
    : Targets :=
  let maintenance := bmr * ToNumber activityMultiplier in
  let weightLoss := maintenance - 500 in
  let weightGain := maintenance + 500 in
  {| t_maintenance := maintenance;
     t_weightLoss := weightLoss;
     t_weightGain := weightGain |}.

Definition calculateCalories (age : float) (gender : JsValue)
    (weight : float) (weightUnit : string)
    (height : float) (heightUnit : string)
    (activityLevel : string) (heightInches : float) : CalorieResult :=
  let weightKg :=
    if String.eqb weightUnit "lbs" then poundsToKilograms weight
    else weight in
  let heightCm :=
    if String.eqb heightUnit "ft"
    then feetInchesToCentimeters height heightInches
    else height in
  let bmr := _calculateBMR age gender weightKg heightCm in
  let activityMultiplier := _getActivityMultiplier activityLevel in
  let targets := _calculateTargets bmr activityMultiplier in
  {| bmr := Math_round bmr;
     maintenance := Math_round (t_maintenance targets);
     weightLoss := Math_round (t_weightLoss targets);
     weightGain := Math_round (t_weightGain targets) |}.

End CalorieEstimator.

(** ** The weekly plan *)

(** An exercise object. [sets] and [reps] are the Numbers [addExercise]
    computes, or what a plan read back from the store has in their place
    ([null] where the Number written was not finite). *)
Record Exercise : Type := {
  id : string;
  name : string;
  sets : JsValue;
  reps : JsValue;
  completed : bool;
  addedAt : string
}.

(** The object kept under [this.weeklyPlan]: the day sequences by day name
    and the time of the last change (absent in the default plan). *)
Record WorkoutPlan : Type := {
  weeklyPlan : gmap string (list Exercise);
  lastModified : option string
}.

Definition days : list string :=
  [ "monday"; "tuesday"; "wednesday"; "thursday"; "friday"; "saturday";
    "sunday" ].

(** [this.days.includes(d)]. *)
Definition days_includes (d : string) : bool := bool_decide (d ∈ days).

(** What the clock, the id generator and the browser's store give to one
    call of an operation. *)
Record Env : Type := {
  generated_id : string;   (* _generateExerciseId() *)
  added_at : string;       (* new Date().toISOString(), for addedAt *)
  modified_at : string;    (* new Date().toISOString(), for lastModified *)
  save_ok : bool           (* localStorage.setItem does not throw *)
}.

(** ** storage.js *)

Module Storage.

(** The item kept under the key [workout_plan], [None] when there is
    none. The item is JSON text; it is kept here as the object
    [JSON.parse] makes of it. *)
Record Storage : Type := { workout_plan : option WorkoutPlan }.

(** [JSON.parse(JSON.stringify(v))] for the values a plan holds. A finite
    Number is written as the shortest text that reads back as the same
    Number, [-0] as ["0"]; NaN and the infinities are written as [null].
    Strings, booleans and [null] come back as they are, and a property
    that is [undefined] is left out, so that reading it gives [undefined]
    again. *)
Definition json_number (x : float) : JsValue :=
  if PrimFloat.is_finite x
  then JsNum (if (x =? 0)%float then 0%float else x)
  else JsNull.

Definition json_value (v : JsValue) : JsValue :=
  match v with
  | JsNum x => json_number x
  | _ => v
  end.

Definition json_exercise (ex : Exercise) : Exercise :=
  {| id := id ex;
     name := name ex;
     sets := json_value (sets ex);
     reps := json_value (reps ex);
     completed := completed ex;
     addedAt := addedAt ex |}.

Definition json_plan (planData : WorkoutPlan) : WorkoutPlan :=
  {| weeklyPlan := (fun exercises : list Exercise =>
                      json_exercise <$> exercises) <$> weeklyPlan planData;
     lastModified := lastModified planData |}.

Definition default_plan : WorkoutPlan :=
  {| weeklyPlan := list_to_map ((fun d => (d, [])) <$> days);
     lastModified := None |}.

(** [saveWorkoutPlan]: the plan is written as JSON text; a failed write
    is swallowed. *)
Definition saveWorkoutPlan (env : Env) (planData : WorkoutPlan)
    (st : Storage) : Storage :=
  if save_ok env then {| workout_plan := Some (json_plan planData) |}
  else st.

Definition loadWorkoutPlan (st : Storage) : WorkoutPlan :=
  default default_plan (workout_plan st).

End Storage.

(** ** workout-planner.js *)

Module WorkoutPlanner.
Import Validator.

(** The planner after [initialize]: its plan and the store it saves to. *)
Record Planner : Type := {
  this_weeklyPlan : WorkoutPlan;
  this_storage : Storage.Storage
}.

(** How a call ends: with a value and the planner as the call leaves it,
    or with the TypeError thrown when a valid day has no sequence in the
    plan. *)
Inductive Completion (A : Type) : Type :=
  | Return (value : A) (this : Planner)
  | TypeError.
Arguments Return {A} value this.
Arguments TypeError {A}.

Inductive Validation : Type :=
  | Valid
  | Invalid (error : string).

Inductive AddResult : Type :=
  | Success (exercise : Exercise)
  | Failure (error : string).

Definition initialize (st : Storage.Storage) : Planner :=
  {| this_weeklyPlan := Storage.loadWorkoutPlan st; this_storage := st |}.

Definition _saveToStorage (env : Env) (this : Planner) : Planner :=
  {| this_weeklyPlan := this_weeklyPlan this;
     this_storage :=
       Storage.saveWorkoutPlan env (this_weeklyPlan this)
         (this_storage this) |}.

(** The planner once a day's sequence has been replaced and the change
    stamped and saved. *)
Definition commit (env : Env) (dayLower : string)
    (exercises : list Exercise) (this : Planner) : Planner :=
  _saveToStorage env
    {| this_weeklyPlan :=
         {| weeklyPlan :=
              <[dayLower := exercises]>
                (weeklyPlan (this_weeklyPlan this));
            lastModified := Some (modified_at env) |};
       this_storage := this_storage this |}.

Definition _validateExerciseInput (exerciseName sets reps : string)
    : Validation :=
  if negb (isNotEmpty (JsStr exerciseName))
  then Invalid "Please enter an exercise name"
  else if negb (isPositiveNumber sets)
  then Invalid "Sets must be a positive number"
  else if negb (isPositiveNumber reps)
  then Invalid "Reps must be a positive number"
  else Valid.

Definition addExercise (env : Env) (day exerciseName sets reps : string)
    (this : Planner) : Completion AddResult :=
  match _validateExerciseInput exerciseName sets reps with
  | Invalid error => Return (Failure error) this
  | Valid =>
      if negb (days_includes (toLowerCase day))
      then Return (Failure "Please select a valid day of the week") this
      else
        let exercise :=
          {| id := generated_id env;
             name := trim exerciseName;
             sets := JsNum (parseInt sets);
             reps := JsNum (parseInt reps);
             completed := false;
             addedAt := added_at env |} in
        match weeklyPlan (this_weeklyPlan this) !! toLowerCase day with
        | None => TypeError
        | Some exercises =>
            Return (Success exercise)
              (commit env (toLowerCase day) (exercises ++ [exercise]) this)
        end
  end.

Definition removeExercise (env : Env) (day exerciseId : string)
    (this : Planner) : Completion bool :=
  let dayLower := toLowerCase day in
  if negb (days_includes dayLower) then Return false this
  else
    match weeklyPlan (this_weeklyPlan this) !! dayLower with
    | None => TypeError
    | Some exercises =>
        match list_find (fun ex => id ex = exerciseId) exercises with
        | None => Return false this
        | Some (index, _) =>
            Return true (commit env dayLower (delete index exercises) this)
        end
    end.

Definition toggle (ex : Exercise) : Exercise :=
  {| id := id ex; name := name ex; sets := sets ex; reps := reps ex;
     completed := negb (completed ex); addedAt := addedAt ex |}.

Definition toggleExerciseCompletion (env : Env) (day exerciseId : string)
    (this : Planner) : Completion bool :=
  let dayLower := toLowerCase day in
  if negb (days_includes dayLower) then Return false this
  else
    match weeklyPlan (this_weeklyPlan this) !! dayLower with
    | None => TypeError
    | Some exercises =>
        match list_find (fun ex => id ex = exerciseId) exercises with
        | None => Return false this
        | Some (index, exercise) =>
            Return true
              (commit env dayLower
                 (<[index := toggle exercise]> exercises) this)
        end
    end.

Definition getWeeklyPlan (this : Planner) : WorkoutPlan :=
  this_weeklyPlan this.

Definition clearDay (env : Env) (day : string) (this : Planner)
    : Completion bool :=
  let dayLower := toLowerCase day in
  if negb (days_includes dayLower) then Return false this
  else Return true (commit env dayLower [] this).

End WorkoutPlanner.

(** ** progress-tracker.js *)

Module ProgressTracker.
Local Open Scope nat_scope.

(** The counters of the two nested [forEach] loops. They are whole
    numbers far below 2^53, so counting them in [nat] is exact. *)
Record Counters : Type := {
  c_totalWorkouts : nat;
  c_completedWorkouts : nat;
  c_currentWeekWorkouts : nat
}.

(** The statistics returned, without [lastWorkoutDate] (no operation of
    the planner records a [completedAt]). *)
Record WorkoutStats : Type := {
  totalWorkouts : nat;
  currentWeekWorkouts : nat;
  completionRate : float
}.

Definition visit_exercise (c : Counters) (exercise : Exercise) : Counters :=
  let total := S (c_totalWorkouts c) in
  if completed exercise
  then {| c_totalWorkouts := total;
          c_completedWorkouts := S (c_completedWorkouts c);
          c_currentWeekWorkouts := S (c_currentWeekWorkouts c) |}
  else {| c_totalWorkouts := total;
          c_completedWorkouts := c_completedWorkouts c;
          c_currentWeekWorkouts := c_currentWeekWorkouts c |}.

Definition visit_day (workoutPlan : WorkoutPlan) (c : Counters)
    (day : string) : Counters :=
  let exercises := default [] (weeklyPlan workoutPlan !! day) in
  foldl visit_exercise c exercises.

Definition count_workouts (workoutPlan : WorkoutPlan) : Counters :=
  foldl (visit_day workoutPlan)
    {| c_totalWorkouts := 0; c_completedWorkouts := 0;
       c_currentWeekWorkouts := 0 |}
    days.

Definition stats_of_plan (workoutPlan : WorkoutPlan) : WorkoutStats :=
  let c := count_workouts workoutPlan in
  {| totalWorkouts := c_totalWorkouts c;
     currentWeekWorkouts := c_currentWeekWorkouts c;
     completionRate :=
       if 0 <? c_totalWorkouts c
       then (of_nat (c_completedWorkouts c) / of_nat (c_totalWorkouts c))%float
       else 0%float |}.

Definition _getWorkoutHistory (st : Storage.Storage) : WorkoutStats :=
  stats_of_plan (Storage.loadWorkoutPlan st).

End ProgressTracker.

(** ** validation.js, the remaining functions *)

Module ValidatorMore.
Import Validator.
Local Open Scope float_scope.

(** [parseFloat] applied to a Number: the text of a Number denotes that
    Number, so it reads back as it is; only the text of [-0] is ["0"]. *)
Definition parseFloat_Number (x : float) : float :=
  if x =? 0 then 0 else x.

(** [isPositiveNumber], [isInRange], [isValidWeight] and [isValidHeight]
    called with a Number, as the two forms call them after parsing. *)
Definition isPositiveNumber_Number (value : float) : bool :=
  let num := parseFloat_Number value in
  negb (isNaN num) && (0 <? num).

Definition isInRange_Number (value min max : float) : bool :=
  let num := parseFloat_Number value in
  negb (isNaN num) && (min <=? num) && (num <=? max).

Definition isValidWeight_Number (weight : float) : bool :=
  isPositiveNumber_Number weight && isInRange_Number weight 1 500.

Definition isValidHeight_Number (height : float) : bool :=
  isPositiveNumber_Number height && isInRange_Number height 1 300.

(** [hasValidLength(value, minLength, maxLength)]. *)
Definition hasValidLength (value : JsValue) (minLength maxLength : float)
    : bool :=
  match value with
  | JsStr s =>
      let length := of_nat (String.length (trim s)) in
      (minLength <=? length) && (length <=? maxLength)
  | _ => false
  end.

(** What [getErrorMessage] returns: a text, or, for a validation type
    that names a member of [Object.prototype], that member. *)
Inductive Message : Type :=
  | Text (text : string)
  | Member (name : string).

Definition messages (fieldName : string) : gmap string string :=
  {[ "empty" := "Please enter " +:+ fieldName;
     "negative" := fieldName +:+ " must be a positive number";
     "nonNumeric" := "Please enter a valid number for " +:+ fieldName;
     "outOfRange" := fieldName +:+ " is out of valid range" ]}.

Definition getErrorMessage (validationType fieldName : string) : Message :=
  match messages fieldName !! validationType with
  | Some text =>
      if String.eqb text "" then Text "Invalid input" else Text text
  | None =>
      if bool_decide
           (validationType ∈ CalorieEstimator.Object_prototype_names)
      then Member validationType
      else Text "Invalid input"
  end.

End ValidatorMore.

(** ** bmi-calculator.js, the form *)

Module BMIForm.
Import Validator ValidatorMore BMICalculator.
Local Open Scope float_scope.

Inductive Validation : Type :=
  | Valid
  | Invalid (error : Message).

(** A field value: [None] when the element is missing ([undefined]). *)
Definition blank (value : option string) : bool :=
  match value with
  | None => true
  | Some s => String.eqb s "" || String.eqb (trim s) ""
  end.

Definition _validateInputs (weight height : option string) : Validation :=
  if blank weight
  then Invalid (Text "Please enter both weight and height values")
  else if blank height
  then Invalid (Text "Please enter both weight and height values")
  else
    let w := default "" weight in
    let h := default "" height in
    if isNaN (parseFloat w)
    then Invalid (getErrorMessage "nonNumeric" "weight")
    else if isNaN (parseFloat h)
    then Invalid (getErrorMessage "nonNumeric" "height")
    else if negb (isPositiveNumber w)
    then Invalid (getErrorMessage "negative" "Weight")
    else if negb (isPositiveNumber h)
    then Invalid (getErrorMessage "negative" "Height")
    else if negb (isValidWeight_Number (parseFloat w))
    then Invalid (getErrorMessage "outOfRange" "Weight")
    else if negb (isValidHeight_Number (parseFloat h))
    then Invalid (getErrorMessage "outOfRange" "Height")
    else Valid.

(** What [_handleCalculate] puts on the page: an error, or the arguments
    of [displayResult]. The entry it adds to the BMI history is left out. *)
Inductive Shown : Type :=
  | ShowError (message : Message)
  | DisplayResult (bmi : float) (category : Category).

(** [value || fallback] on a field value. *)
Definition or_else (value : option string) (fallback : string) : string :=
  match value with
  | Some s => if String.eqb s "" then fallback else s
  | None => fallback
  end.

Definition _handleCalculate (weight weightUnit height heightUnit
    heightInches : option string) : Shown :=
  let weightUnit := or_else weightUnit "kg" in
  let heightUnit := or_else heightUnit "cm" in
  (* heightInches: the field's text, or the number 0 *)
  let inchesText :=
    match heightInches with
    | Some s => if String.eqb s "" then None else Some s
    | None => None
    end in
  match _validateInputs weight height with
  | Invalid error => ShowError error
  | Valid =>
      let inchesNum :=
        match inchesText with
        | Some s => parseFloat s
        | None => 0
        end in
      let checked :=
        match inchesText with
        | Some _ => String.eqb heightUnit "ft"
        | None => false
        end in
      if checked && negb (isNaN inchesNum) && (12 <=? inchesNum)
      then ShowError
             (Text "Inches must be less than 12 (use feet for values 12 and above)")
      else if checked && negb (isNaN inchesNum) && (inchesNum <? 0)
      then ShowError (Text "Inches must be a positive number")
      else
        let result :=
          calculateBMI (parseFloat (default "" weight)) weightUnit
            (parseFloat (default "" height)) heightUnit inchesNum in
        DisplayResult (bmi result) (category result)
  end.

End BMIForm.

(** ** calorie-estimator.js, the form *)

Module CalorieForm.
Import Validator ValidatorMore.
Local Open Scope float_scope.

Inductive Validation : Type :=
  | Valid
  | Invalid (error : Message).

(** [!value] on a selection: missing or empty. *)
Definition missing (value : option string) : bool :=
  match value with
  | None => true
  | Some s => String.eqb s ""
  end.

Definition _validateInputs (age gender weight height activityLevel
    : option string) : Validation :=
  if BMIForm.blank age || missing gender || BMIForm.blank weight
     || BMIForm.blank height || missing activityLevel
  then Invalid
         (Text "Please fill in all required fields: age, gender, weight, height, and activity level")
  else
    let ageNum := parseFloat (default "" age) in
    let weightNum := parseFloat (default "" weight) in
    let heightNum := parseFloat (default "" height) in
    if isNaN ageNum then Invalid (getErrorMessage "nonNumeric" "age")
    else if isNaN weightNum
    then Invalid (getErrorMessage "nonNumeric" "weight")
    else if isNaN heightNum
    then Invalid (getErrorMessage "nonNumeric" "height")
    else if negb (isPositiveNumber_Number ageNum)
    then Invalid (getErrorMessage "negative" "Age")
    else if negb (isPositiveNumber_Number weightNum)
    then Invalid (getErrorMessage "negative" "Weight")
    else if negb (isPositiveNumber_Number heightNum)
    then Invalid (getErrorMessage "negative" "Height")
    else Valid.

End CalorieForm.

(** ** Runs of planner operations *)

Module PlannerRun.
Import WorkoutPlanner.

(** One call of a mutating operation of the planner. *)
Inductive Call : Type :=
  | CallAdd (day exerciseName sets reps : string)
  | CallRemove (day exerciseId : string)
  | CallToggle (day exerciseId : string)
  | CallClear (day : string).

(** The planner a call leaves, [None] when it throws. *)
Definition after {A : Type} (c : Completion A) : option Planner :=
  match c with
  | Return _ this => Some this
  | TypeError => None
  end.

Definition perform (env : Env) (call : Call) (this : Planner)
    : option Planner :=
  match call with
  | CallAdd day exerciseName sets reps =>
      after (addExercise env day exerciseName sets reps this)
  | CallRemove day exerciseId => after (removeExercise env day exerciseId this)
  | CallToggle day exerciseId =>
      after (toggleExerciseCompletion env day exerciseId this)
  | CallClear day => after (clearDay env day this)
  end.

Fixpoint run (calls : list (Env * Call)) (this : Planner) : option Planner :=
  match calls with
  | [] => Some this
  | (env, call) :: rest =>
      match perform env call this with
      | Some this' => run rest this'
      | None => None
      end
  end.

(** Every day of the week has a sequence in the plan. *)
Definition has_all_days (this : Planner) : Prop :=
  forall day, day ∈ days ->
    is_Some (weeklyPlan (this_weeklyPlan this) !! day).

(** No two exercises of one day share an id. *)
Definition unique_ids (this : Planner) : Prop :=
  forall day exercises,
    weeklyPlan (this_weeklyPlan this) !! day = Some exercises ->
    NoDup (id <$> exercises).

(** The id generator gives an id that the day added to does not hold. *)
Definition fresh_id (env : Env) (call : Call) (this : Planner) : Prop :=
  match call with
  | CallAdd day _ _ _ =>
      forall exercises,
        weeklyPlan (this_weeklyPlan this) !! toLowerCase day = Some exercises ->
        Forall (fun ex => id ex <> generated_id env) exercises
  | _ => True
  end.

(** The two counts the progress tracker derives from the planner's plan. *)
Definition n_total (this : Planner) : nat :=
  ProgressTracker.totalWorkouts
    (ProgressTracker.stats_of_plan (this_weeklyPlan this)).

Definition n_done (this : Planner) : nat :=
  ProgressTracker.currentWeekWorkouts
    (ProgressTracker.stats_of_plan (this_weeklyPlan this)).

End PlannerRun.

(** The sequence of a day as the tracker reads it: empty when missing. *)
Definition day_exercises (m : gmap string (list Exercise)) (day : string)
    : list Exercise := default [] (m !! day).

(** [trim] on the list of code units. *)
Definition trimL (l : list ascii) : list ascii := trimEndL (trimStartL l).

(** The categories in the order of their thresholds. *)
Definition rank (c : BMICalculator.Category) : nat :=
  match c with
  | BMICalculator.Underweight => 0
  | BMICalculator.Normal => 1
  | BMICalculator.Overweight => 2
  | BMICalculator.Obese => 3
  end.

(** ** The order of binary64 values *)

Module FloatKey.
Local Open Scope Z_scope.

(** The place of a value that is not NaN in the order of [SFcompare]:
    the sign class first, then the exponent, then the mantissa. *)
Definition sf_key (s : spec_float) : Z * Z * Z :=
  match s with
  | S754_zero _ => (0, 0, 0)
  | S754_infinity true => (-2, 0, 0)
  | S754_infinity false => (2, 0, 0)
  | S754_nan => (0, 0, 0)
  | S754_finite true m e => (-1, - e, Z.neg m)
  | S754_finite false m e => (1, e, Z.pos m)
  end.

Definition fkey (x : float) : Z * Z * Z := sf_key (Prim2SF x).

Definition key_lt (a b : Z * Z * Z) : Prop :=
  let '(a1, a2, a3) := a in
  let '(b1, b2, b3) := b in
  a1 < b1 \/ (a1 = b1 /\ (a2 < b2 \/ (a2 = b2 /\ a3 < b3))).

Definition key_le (a b : Z * Z * Z) : Prop :=
  let '(a1, a2, a3) := a in
  let '(b1, b2, b3) := b in
  a1 < b1 \/ (a1 = b1 /\ (a2 < b2 \/ (a2 = b2 /\ a3 <= b3))).

End FloatKey.

(** ** Statements of the specification *)

(** The classification the specification gives, read at one value:
    half-open intervals with inclusive lower bounds. *)
Definition half_open_intervals (bmi : float) : Prop :=
  let category := BMICalculator._determineBMICategory bmi in
  (category = BMICalculator.Underweight <-> (bmi <? 18.5)%float = true) /\
  (category = BMICalculator.Normal
     <-> (18.5 <=? bmi)%float = true /\ (bmi <? 25.0)%float = true) /\
  (category = BMICalculator.Overweight
     <-> (25.0 <=? bmi)%float = true /\ (bmi <? 30.0)%float = true) /\
  (category = BMICalculator.Obese <-> (30.0 <=? bmi)%float = true).

(** The exercises of the seven days, Monday first, and those of them
    that are completed. *)
Definition all_exercises (workoutPlan : WorkoutPlan) : list Exercise :=
  days ≫= (fun day => default [] (weeklyPlan workoutPlan !! day)).

Definition completed_exercises (workoutPlan : WorkoutPlan) : list Exercise :=
  filter (fun ex => completed ex = true) (all_exercises workoutPlan).

(** ** Sample data *)

Definition sample_env : Env :=
  {| generated_id := "ex_1700000000000_k3j2h1g0f";
     added_at := "2024-01-01T10:00:00.000Z";
     modified_at := "2024-01-01T10:00:00.001Z";
     save_ok := true |}.

(** The planner a first visit starts with: nothing stored, seven empty
    days. *)
Definition fresh_planner : WorkoutPlanner.Planner :=
  WorkoutPlanner.initialize {| Storage.workout_plan := None |}.

Definition squats : Exercise :=
  {| id := "ex_1700000000000_k3j2h1g0f";
     name := "Squats";
     sets := JsNum 3;
     reps := JsNum 10;
     completed := false;
     addedAt := "2024-01-01T10:00:00.000Z" |}.

(** The planner after [addExercise("Monday", "Squats", 3, 10)]. *)
Definition squats_planner : WorkoutPlanner.Planner :=
  WorkoutPlanner.commit sample_env "monday" [squats] fresh_planner.

(** A run of calls as the page could make them: a good add, a toggle
    with the day in capitals, a remove of an unknown id, a clear, and an
    add that fails its validation. *)
Definition sample_calls : list (Env * PlannerRun.Call) :=
  [ (sample_env, PlannerRun.CallAdd "Monday" "Squats" "3" "10");
    (sample_env, PlannerRun.CallToggle "MONDAY" "ex_1700000000000_k3j2h1g0f");
    (sample_env, PlannerRun.CallRemove "friday" "ex_0");
    (sample_env, PlannerRun.CallClear "Sunday");
    (sample_env, PlannerRun.CallAdd "Funday" "" "0" "x") ].

(** * Properties *)

(** ** Comparisons of binary64 values *)

Ltac sf_cases s :=
  destruct s as [[|] | [|] | | [|] ? ?]; cbn;
  try discriminate; try reflexivity; try congruence.

Section FloatOrder.
Local Open Scope Z_scope.

(** Two positive finite values with the same exponent are ordered as their
    mantissas are: when [s] is at least the larger one, [s] is not below
    the smaller one. *)
Lemma SFleb_not_SFltb (e0 : Z) (ma mb : positive) (s : spec_float) :
  (ma <= mb)%positive ->
  SFleb (S754_finite false mb e0) s = true ->
  SFltb s (S754_finite false ma e0) = false.
Proof.
  intros Hm. unfold SFleb, SFltb.
  destruct s as [[|] | [|] | | [|] m e]; cbn;
    try discriminate; try reflexivity.
  rewrite (Z.compare_antisym e e0).
  fold (Pos.compare mb m). fold (Pos.compare m ma).
  destruct (Z.compare_spec e e0) as [-> | Hlt | Hgt]; cbn;
    try discriminate; try reflexivity.
  destruct (Pos.compare_spec mb m), (Pos.compare_spec m ma);
    try discriminate; try reflexivity; intros _; lia.
Qed.

(** Two values that are not NaN are comparable. *)
Lemma SFltb_false_SFleb (a s : spec_float) :
  a <> S754_nan -> s <> S754_nan ->
  SFltb s a = false -> SFleb a s = true.
Proof.
  intros Ha Hs. unfold SFleb, SFltb.
  destruct a as [[|] | [|] | | [|] ma ea]; try congruence;
    destruct s as [[|] | [|] | | [|] m e]; try congruence; cbn;
    try discriminate; try reflexivity.
  all: rewrite (Z.compare_antisym e ea);
    fold (Pos.compare ma m); fold (Pos.compare m ma);
    rewrite (Pos.compare_antisym m ma);
    destruct (e ?= ea); cbn; try discriminate; try reflexivity;
    destruct (m ?= ma)%positive; cbn; try discriminate; reflexivity.
Qed.

End FloatOrder.

Section FloatFacts.
Local Open Scope float_scope.

Lemma ltb_SF (x y : float) : (x <? y) = SFltb (Prim2SF x) (Prim2SF y).
Proof. apply FloatAxioms.ltb_spec. Qed.

Lemma leb_SF (x y : float) : (x <=? y) = SFleb (Prim2SF x) (Prim2SF y).
Proof. apply FloatAxioms.leb_spec. Qed.

(** A value that is not NaN has a specification that is not NaN. *)
Lemma isNaN_false_SF (x : float) : isNaN x = false -> Prim2SF x <> S754_nan.
Proof.
  unfold isNaN, is_nan. rewrite FloatAxioms.eqb_spec. intros H E.
  rewrite E in H. discriminate.
Qed.

(** [lo <= x] excludes [x < hi] for two thresholds [hi <= lo] of the
    classification; all of them have the exponent -48. *)
Lemma above_not_below (lo hi x : float) (mlo mhi : positive) :
  Prim2SF lo = S754_finite false mlo (-48) ->
  Prim2SF hi = S754_finite false mhi (-48) ->
  (mhi <= mlo)%positive ->
  (lo <=? x) = true -> (x <? hi) = false.
Proof.
  intros Hlo Hhi Hm. rewrite leb_SF, ltb_SF, Hlo, Hhi.
  now apply SFleb_not_SFltb.
Qed.

Lemma not_below_above (a x : float) :
  isNaN a = false -> isNaN x = false ->
  (x <? a) = false -> (a <=? x) = true.
Proof.
  intros Ha Hx. rewrite leb_SF, ltb_SF.
  apply SFltb_false_SFleb; now apply isNaN_false_SF.
Qed.

(** Dividing by zero: the quotient of a value that is not below zero is
    [+∞] or NaN, and neither is below a finite threshold. *)
Lemma div_zero_not_below (x t : float) (mt : positive) (et : Z) :
  Prim2SF t = S754_finite false mt et ->
  (x <? 0) = false -> (x / 0 <? t) = false.
Proof.
  intros Ht. rewrite !ltb_SF, FloatAxioms.div_spec, Ht.
  change (Prim2SF 0) with (S754_zero false).
  sf_cases (Prim2SF x).
Qed.

End FloatFacts.

(** ** BMI classification *)

Section BMI.
Import BMICalculator.
Local Open Scope float_scope.

Lemma le_185_not_lt_185 x : (18.5 <=? x) = true -> (x <? 18.5) = false.
Proof.
  now apply (above_not_below _ _ _ 5207287069147136 5207287069147136).
Qed.

Lemma le_25_not_lt_185 x : (25 <=? x) = true -> (x <? 18.5) = false.
Proof.
  now apply (above_not_below _ _ _ 7036874417766400 5207287069147136).
Qed.

Lemma le_25_not_lt_25 x : (25 <=? x) = true -> (x <? 25) = false.
Proof.
  now apply (above_not_below _ _ _ 7036874417766400 7036874417766400).
Qed.

Lemma le_30_not_lt_185 x : (30 <=? x) = true -> (x <? 18.5) = false.
Proof.
  now apply (above_not_below _ _ _ 8444249301319680 5207287069147136).
Qed.

Lemma le_30_not_lt_25 x : (30 <=? x) = true -> (x <? 25) = false.
Proof.
  now apply (above_not_below _ _ _ 8444249301319680 7036874417766400).
Qed.

Lemma le_30_not_lt_30 x : (30 <=? x) = true -> (x <? 30) = false.
Proof.
  now apply (above_not_below _ _ _ 8444249301319680 8444249301319680).
Qed.

(** C2, as the code has it: for every bmi value that is not NaN the
    category is Underweight iff bmi < 18.5, Normal iff 18.5 <= bmi < 25.0,
    Overweight iff 25.0 <= bmi < 30.0 and Obese iff bmi >= 30.0; and
    18.5 is Normal, 25.0 is Overweight, 30.0 is Obese. *)
Theorem bmi_category_half_open (bmi : float) :
  isNaN bmi = false ->
  half_open_intervals bmi /\
  _determineBMICategory 18.5 = Normal /\
  _determineBMICategory 25.0 = Overweight /\
  _determineBMICategory 30.0 = Obese.
Proof.
  intros Hn. split; [| repeat split; reflexivity].
  unfold half_open_intervals, _determineBMICategory.
  destruct (bmi <? 18.5) eqn:H1.
  { repeat split; try discriminate; try reflexivity.
    - intros [H _]. apply le_185_not_lt_185 in H. congruence.
    - intros [H _]. apply le_25_not_lt_185 in H. congruence.
    - intros H. apply le_30_not_lt_185 in H. congruence. }
  assert (H185 : (18.5 <=? bmi) = true) by (now apply not_below_above).
  rewrite H185. cbn [andb].
  destruct (bmi <? 25) eqn:H2.
  { repeat split; try discriminate; try reflexivity; auto.
    - intros [H _]. apply le_25_not_lt_25 in H. congruence.
    - intros H. apply le_30_not_lt_25 in H. congruence. }
  assert (H25 : (25 <=? bmi) = true) by (now apply not_below_above).
  rewrite H25. cbn [andb].
  destruct (bmi <? 30) eqn:H3.
  { repeat split; try discriminate; try reflexivity; auto.
    - intros [_ H]; discriminate.
    - intros H. apply le_30_not_lt_30 in H. congruence. }
  assert (H30 : (30 <=? bmi) = true) by (now apply not_below_above).
  repeat split; try discriminate; try reflexivity; auto.
  - intros [_ H]; discriminate.
  - intros [_ H]; discriminate.
Qed.

(** C2 at bmi = 24.2, the value of the 70 kg, 170 cm scenario. *)
Lemma bmi_category_half_open_witness :
  isNaN 24.2 = false /\
  (half_open_intervals 24.2 /\
   _determineBMICategory 18.5 = Normal /\
   _determineBMICategory 25.0 = Overweight /\
   _determineBMICategory 30.0 = Obese).
Proof.
  split; [reflexivity | apply (bmi_category_half_open 24.2); reflexivity].
Defined.

(** C2 as stated fails at NaN: NaN is classified Obese although
    [NaN >= 30.0] is false. *)
Lemma bmi_category_nan_not_half_open : ~ half_open_intervals nan.
Proof.
  intros (_ & _ & _ & H). destruct H as [H _].
  specialize (H eq_refl). discriminate.
Qed.

(** C10: the classification is total, and Obese is the catch-all. Every
    value gets one of the four categories; a value for which none of
    [bmi < 18.5], [18.5 <= bmi < 25.0], [25.0 <= bmi < 30.0] holds is
    Obese; so are NaN and [+∞]; and so is the result of [calculateBMI]
    when the height in metres is a zero and the weight is not negative
    (the quotient is then NaN or [+∞]). *)
Theorem bmi_category_total :
  (forall bmi,
     _determineBMICategory bmi = Underweight \/
     _determineBMICategory bmi = Normal \/
     _determineBMICategory bmi = Overweight \/
     _determineBMICategory bmi = Obese) /\
  (forall bmi,
     (bmi <? 18.5) = false ->
     ((18.5 <=? bmi) && (bmi <? 25.0)) = false ->
     ((25.0 <=? bmi) && (bmi <? 30.0)) = false ->
     _determineBMICategory bmi = Obese) /\
  _determineBMICategory nan = Obese /\
  _determineBMICategory infinity = Obese /\
  (forall weight weightUnit height heightUnit heightInches,
     let r := calculateBMI weight weightUnit height heightUnit heightInches in
     heightM r = 0 \/ heightM r = -0 ->
     (weightKg r <? 0) = false ->
     category r = Obese).
Proof.
  split; [| split; [| split; [| split]]].
  - intros bmi. unfold _determineBMICategory.
    destruct (bmi <? 18.5); [auto |].
    destruct ((18.5 <=? bmi) && (bmi <? 25)); [auto |].
    destruct ((25 <=? bmi) && (bmi <? 30)); auto.
  - intros bmi H1 H2 H3. unfold _determineBMICategory.
    now rewrite H1, H2, H3.
  - reflexivity.
  - reflexivity.
  - intros weight weightUnit height heightUnit heightInches r Hh Hw.
    unfold r, calculateBMI in *. cbn [category heightM weightKg] in *.
    set (w := if String.eqb weightUnit "lbs" then _ else _) in *.
    set (h := if String.eqb heightUnit "ft" then _ else _) in *.
    assert (Hz : h * h = 0) by (destruct Hh as [-> | ->]; reflexivity).
    rewrite Hz. unfold _determineBMICategory.
    rewrite (div_zero_not_below w 18.5 5207287069147136 (-48))
      by (reflexivity || assumption).
    rewrite (div_zero_not_below w 25 7036874417766400 (-48))
      by (reflexivity || assumption).
    rewrite (div_zero_not_below w 30 8444249301319680 (-48))
      by (reflexivity || assumption).
    now rewrite !andb_false_r.
Qed.

(** C10 on three calls of [calculateBMI] with height 0: 70 kg gives [+∞]
    and 0 kg gives NaN, both Obese. A negative weight gives [-∞], which
    is below 18.5 and therefore Underweight. *)
Lemma bmi_category_total_witness :
  category (calculateBMI 70 "kg" 0 "cm" 0) = Obese /\
  category (calculateBMI 0 "kg" 0 "cm" 0) = Obese /\
  category (calculateBMI (-70) "kg" 0 "cm" 0) = Underweight.
Proof.
  destruct bmi_category_total as (_ & _ & _ & _ & H).
  split; [| split].
  - apply (H 70 "kg" 0 "cm" 0); [left |]; reflexivity.
  - apply (H 0 "kg" 0 "cm" 0); [left |]; reflexivity.
  - reflexivity.
Defined.

(** The scenarios of the specification: 70 kg at 170 cm, 154.3 lbs at
    170 cm and 70 kg at 5 ft 7 in all give 24.2, Normal. *)
Example bmi_scenarios :
  bmi (calculateBMI 70 "kg" 170 "cm" 0) = 24.2 /\
  category (calculateBMI 70 "kg" 170 "cm" 0) = Normal /\
  bmi (calculateBMI 154.3 "lbs" 170 "cm" 0) = 24.2 /\
  bmi (calculateBMI 70 "kg" 5 "ft" 7) = 24.2.
Proof. repeat split; vm_compute; reflexivity. Qed.

End BMI.

(** ** Calorie estimation *)

Section Calories.
Import CalorieEstimator UnitConverter.
Local Open Scope float_scope.

Lemma strict_eq_string_true (v : JsValue) (s : string) :
  strict_eq_string v s = true <-> v = JsStr s.
Proof.
  destruct v; cbn; try (split; [discriminate | congruence]).
  rewrite String.eqb_eq. split; congruence.
Qed.

(** C3: the BMR is [10 × weightKg + 6.25 × heightCm − 5 × age], plus 5
    for the gender ['male'] and minus 161 for every other gender value;
    [calculateCalories] rounds it only in the result it returns (the
    maintenance target is computed from the unrounded BMR); and for age 30,
    male, 70 kg, 170 cm the BMR is 1617.5 and the returned [bmr] is 1618. *)
Theorem bmr_mifflin_st_jeor :
  (forall age weightKg heightCm,
     _calculateBMR age (JsStr "male") weightKg heightCm
     = 10 * weightKg + 6.25 * heightCm - 5 * age + 5) /\
  (forall age gender weightKg heightCm,
     gender <> JsStr "male" ->
     _calculateBMR age gender weightKg heightCm
     = 10 * weightKg + 6.25 * heightCm - 5 * age - 161) /\
  (forall age gender weight weightUnit height heightUnit activityLevel
          heightInches,
     let weightKg :=
       if String.eqb weightUnit "lbs" then poundsToKilograms weight
       else weight in
     let heightCm :=
       if String.eqb heightUnit "ft"
       then feetInchesToCentimeters height heightInches else height in
     let r := calculateCalories age gender weight weightUnit height
                heightUnit activityLevel heightInches in
     bmr r = Math_round (_calculateBMR age gender weightKg heightCm) /\
     maintenance r
     = Math_round (_calculateBMR age gender weightKg heightCm
                   * ToNumber (_getActivityMultiplier activityLevel))) /\
  _calculateBMR 30 (JsStr "male") 70 170 = 1617.5 /\
  (forall activityLevel,
     bmr (calculateCalories 30 (JsStr "male") 70 "kg" 170 "cm"
            activityLevel 0) = 1618) /\
  maintenance (calculateCalories 30 (JsStr "male") 70 "kg" 170 "cm"
                 "sedentary" 0) = 1941.
Proof.
  repeat split.
  intros age gender weightKg heightCm Hg. unfold _calculateBMR.
  destruct (strict_eq_string gender "male") eqn:E; [| reflexivity].
  apply strict_eq_string_true in E. contradiction.
Qed.

(** C3 for a gender that is not ['male']: 30 years, female, 70 kg, 170 cm
    gives 1617.5 − 5 − 161 = 1451.5. *)
Lemma bmr_mifflin_st_jeor_witness :
  _calculateBMR 30 (JsStr "female") 70 170 = 1451.5.
Proof.
  rewrite (proj1 (proj2 bmr_mifflin_st_jeor) 30 (JsStr "female") 70 170)
    by discriminate.
  reflexivity.
Defined.

(** Had the BMR been rounded before the multiplier was applied, the
    maintenance target of the scenario would be 1942 and not 1941. *)
Example rounding_at_the_boundary :
  Math_round (1617.5 * 1.2) = 1941 /\ Math_round (1618 * 1.2) = 1942.
Proof. split; vm_compute; reflexivity. Qed.

(** C8 fails in the code for the keys that the table inherits from
    [Object.prototype]: for ['constructor'] the lookup returns the
    inherited function, not 1.2, and the calorie targets computed from it
    are NaN. *)
Theorem activity_multiplier_inherited_key :
  _getActivityMultiplier "constructor" = Builtin "constructor" /\
  _getActivityMultiplier "constructor" <> OwnNumber 1.2 /\
  isNaN (maintenance (calculateCalories 30 (JsStr "male") 70 "kg" 170 "cm"
                        "constructor" 0)) = true /\
  isNaN (weightLoss (calculateCalories 30 (JsStr "male") 70 "kg" 170 "cm"
                       "constructor" 0)) = true /\
  isNaN (weightGain (calculateCalories 30 (JsStr "male") 70 "kg" 170 "cm"
                       "constructor" 0)) = true.
Proof. repeat split. discriminate. Qed.

(** The five entries of the table. *)
Lemma activity_multiplier_table :
  _getActivityMultiplier "sedentary" = OwnNumber 1.2 /\
  _getActivityMultiplier "lightly_active" = OwnNumber 1.375 /\
  _getActivityMultiplier "moderately_active" = OwnNumber 1.55 /\
  _getActivityMultiplier "very_active" = OwnNumber 1.725 /\
  _getActivityMultiplier "extra_active" = OwnNumber 1.9.
Proof. repeat split. Qed.

(** A key that is neither in the table nor a member of
    [Object.prototype] gets the sedentary multiplier. *)
Lemma activity_multiplier_default (activityLevel : string) :
  multipliers !! activityLevel = None ->
  activityLevel ∉ Object_prototype_names ->
  _getActivityMultiplier activityLevel = OwnNumber 1.2.
Proof.
  intros Hown Hproto. unfold _getActivityMultiplier, get_property.
  rewrite Hown. now rewrite bool_decide_eq_false_2.
Qed.

(** Every member of [Object.prototype] is returned as it is. *)
Lemma activity_multiplier_inherited (activityLevel : string) :
  activityLevel ∈ Object_prototype_names ->
  _getActivityMultiplier activityLevel = Builtin activityLevel.
Proof.
  intros H. unfold Object_prototype_names in H.
  repeat (apply elem_of_cons in H as [-> | H]; [reflexivity |]).
  now apply elem_of_nil in H.
Qed.

End Calories.

(** ** Workout statistics *)

Section Progress.
Import ProgressTracker.
Local Open Scope nat_scope.

(** The inner loop adds the length of the sequence to the total and the
    number of completed exercises to both other counters. *)
Lemma visit_exercises_counts (l : list Exercise) (c : Counters) :
  foldl visit_exercise c l =
  {| c_totalWorkouts := c_totalWorkouts c + length l;
     c_completedWorkouts :=
       c_completedWorkouts c
       + length (filter (fun ex => completed ex = true) l);
     c_currentWeekWorkouts :=
       c_currentWeekWorkouts c
       + length (filter (fun ex => completed ex = true) l) |}.
Proof.
  revert c. induction l as [| ex l IH]; intros c; cbn [foldl].
  - destruct c; cbn. f_equal; lia.
  - rewrite IH. unfold visit_exercise. rewrite filter_cons.
    destruct (completed ex) eqn:E; cbn.
    + rewrite decide_True by done. cbn. f_equal; lia.
    + rewrite decide_False by done. f_equal; lia.
Qed.

(** The outer loop visits the exercises of the days in order. *)
Lemma visit_days_counts (workoutPlan : WorkoutPlan) (ds : list string)
    (c : Counters) :
  foldl (visit_day workoutPlan) c ds =
  foldl visit_exercise c
    (ds ≫= (fun day => default [] (weeklyPlan workoutPlan !! day))).
Proof.
  revert c. induction ds as [| d ds IH]; intros c; [reflexivity |].
  cbn [foldl]. rewrite IH, bind_cons, foldl_app. reflexivity.
Qed.

Lemma count_workouts_counts (workoutPlan : WorkoutPlan) :
  count_workouts workoutPlan =
  {| c_totalWorkouts := length (all_exercises workoutPlan);
     c_completedWorkouts := length (completed_exercises workoutPlan);
     c_currentWeekWorkouts := length (completed_exercises workoutPlan) |}.
Proof.
  unfold count_workouts. rewrite visit_days_counts, visit_exercises_counts.
  reflexivity.
Qed.

(** C4: for every plan, [currentWeekWorkouts] of the statistics is the
    counter [completedWorkouts], which is the number of exercises with
    [completed = true]; no week filter tells the two apart. *)
Theorem current_week_is_completed (workoutPlan : WorkoutPlan) :
  currentWeekWorkouts (stats_of_plan workoutPlan)
  = c_completedWorkouts (count_workouts workoutPlan) /\
  c_completedWorkouts (count_workouts workoutPlan)
  = length (completed_exercises workoutPlan) /\
  forall st, Storage.loadWorkoutPlan st = workoutPlan ->
    currentWeekWorkouts (_getWorkoutHistory st)
    = length (completed_exercises workoutPlan).
Proof.
  split; [| split].
  - unfold stats_of_plan. cbn [currentWeekWorkouts].
    now rewrite count_workouts_counts.
  - now rewrite count_workouts_counts.
  - intros st <-. unfold _getWorkoutHistory, stats_of_plan.
    cbn [currentWeekWorkouts]. now rewrite count_workouts_counts.
Qed.

(** C9: [completionRate] is [completedWorkouts / totalWorkouts] when the
    plan has an exercise, and exactly 0, not NaN, when none of the seven
    days has one. *)
Theorem completion_rate_spec (workoutPlan : WorkoutPlan) :
  totalWorkouts (stats_of_plan workoutPlan)
  = length (all_exercises workoutPlan) /\
  (0 < length (all_exercises workoutPlan) ->
   completionRate (stats_of_plan workoutPlan)
   = (of_nat (length (completed_exercises workoutPlan))
      / of_nat (length (all_exercises workoutPlan)))%float) /\
  ((forall day, day ∈ days ->
      default [] (weeklyPlan workoutPlan !! day) = []) ->
   completionRate (stats_of_plan workoutPlan) = 0%float /\
   isNaN (completionRate (stats_of_plan workoutPlan)) = false).
Proof.
  unfold stats_of_plan. cbn [totalWorkouts completionRate].
  rewrite count_workouts_counts. cbn [c_totalWorkouts c_completedWorkouts].
  split; [reflexivity |]. split.
  - intros Hpos. apply Nat.ltb_lt in Hpos. now rewrite Hpos.
  - intros Hempty.
    assert (E : all_exercises workoutPlan = []).
    { unfold all_exercises. generalize Hempty. generalize days.
      intros ds. induction ds as [| d ds IH]; intros H; [reflexivity |].
      rewrite bind_cons, H by apply list_elem_of_here.
      apply IH. intros day Hd. apply H. now apply list_elem_of_further. }
    rewrite E. split; reflexivity.
Qed.

(** C9 on two plans: the default plan has rate 0, and a plan with one
    exercise, not completed, has rate 0 / 1. *)
Lemma completion_rate_spec_witness :
  completionRate (stats_of_plan Storage.default_plan) = 0%float /\
  completionRate
    (stats_of_plan (WorkoutPlanner.this_weeklyPlan squats_planner))
  = (of_nat 0 / of_nat 1)%float.
Proof.
  split.
  - apply (proj2 (proj2 (completion_rate_spec Storage.default_plan))).
    intros day Hd. unfold days in Hd.
    repeat (apply elem_of_cons in Hd as [-> | Hd]; [reflexivity |]).
    now apply elem_of_nil in Hd.
  - apply (proj1 (proj2 (completion_rate_spec
                           (WorkoutPlanner.this_weeklyPlan squats_planner)))).
    vm_compute. lia.
Defined.

End Progress.

(** ** The weekly plan and its operations *)

Section Planner.
Import WorkoutPlanner Validator.
Local Open Scope list_scope.

Lemma toggle_involutive (ex : Exercise) : toggle (toggle ex) = ex.
Proof. destruct ex; unfold toggle; cbn. now rewrite negb_involutive. Qed.

(** The first exercise with a given id splits the sequence. *)
Lemma find_by_id_split (exerciseId : string) (exercises : list Exercise)
    (index : nat) (exercise : Exercise) :
  list_find (fun ex => id ex = exerciseId) exercises
  = Some (index, exercise) ->
  exists before after,
    exercises = before ++ exercise :: after /\
    length before = index /\
    id exercise = exerciseId /\
    Forall (fun ex => id ex <> exerciseId) before.
Proof.
  intros (Hl & Hid & Hfirst)%list_find_Some.
  exists (take index exercises), (drop (S index) exercises).
  split; [| split; [| split]].
  - now rewrite take_drop_middle.
  - apply length_take_le. apply lookup_lt_Some in Hl. lia.
  - exact Hid.
  - apply Forall_lookup. intros j ex Hj.
    apply lookup_take_Some in Hj as [Hj Hlt]. now apply (Hfirst j).
Qed.

(** Toggling the exercise found keeps it the one found. *)
Lemma find_by_id_toggled (exerciseId : string) (exercises : list Exercise)
    (index : nat) (exercise : Exercise) :
  list_find (fun ex => id ex = exerciseId) exercises
  = Some (index, exercise) ->
  list_find (fun ex => id ex = exerciseId)
    (<[index := toggle exercise]> exercises)
  = Some (index, toggle exercise).
Proof.
  intros (Hl & Hid & Hfirst)%list_find_Some. apply list_find_Some.
  split; [| split].
  - apply list_lookup_insert_eq. now apply lookup_lt_Some in Hl.
  - exact Hid.
  - intros j ex Hj Hlt. rewrite list_lookup_insert_ne in Hj by lia.
    now apply (Hfirst j).
Qed.

(** The sample planner is the one [addExercise("Monday", "Squats", 3, 10)]
    leaves. *)
Example squats_planner_reached :
  addExercise sample_env "Monday" "Squats" "3" "10" fresh_planner
  = Return (Success squats) squats_planner.
Proof. vm_compute. reflexivity. Qed.

(** C5: for a valid day and an id present in that day's sequence, two
    calls of [toggleExerciseCompletion] both return true. After the first
    call the day's sequence differs from the old one at the position of
    the first exercise with that id only, and the entry there has
    [completed] negated and every other field as before; after the
    second call the entry is the original one again, [completed]
    included, and the day sequences are again what they were. *)
Theorem toggle_twice_restores (env1 env2 : Env) (day exerciseId : string)
    (this : Planner) (exercises : list Exercise) :
  days_includes (toLowerCase day) = true ->
  weeklyPlan (this_weeklyPlan this) !! toLowerCase day = Some exercises ->
  (exists ex, ex ∈ exercises /\ id ex = exerciseId) ->
  exists index exercise flipped this1 this2,
    list_find (fun ex => id ex = exerciseId) exercises
    = Some (index, exercise) /\
    exercises !! index = Some exercise /\
    toggleExerciseCompletion env1 day exerciseId this = Return true this1 /\
    weeklyPlan (this_weeklyPlan this1) !! toLowerCase day
    = Some (<[index := flipped]> exercises) /\
    <[index := flipped]> exercises !! index = Some flipped /\
    completed flipped = negb (completed exercise) /\
    id flipped = id exercise /\
    name flipped = name exercise /\
    sets flipped = sets exercise /\
    reps flipped = reps exercise /\
    addedAt flipped = addedAt exercise /\
    toggleExerciseCompletion env2 day exerciseId this1 = Return true this2 /\
    weeklyPlan (this_weeklyPlan this2) !! toLowerCase day = Some exercises /\
    weeklyPlan (this_weeklyPlan this2) !! toLowerCase day
    = Some (<[index := exercise]> (<[index := flipped]> exercises)) /\
    completed exercise = negb (completed flipped) /\
    weeklyPlan (this_weeklyPlan this2) = weeklyPlan (this_weeklyPlan this).
Proof.
  intros Hday Hseq (ex & Hin & Hid).
  destruct (list_find_elem_of (fun ex => id ex = exerciseId) exercises ex
              Hin Hid) as [[index exercise] Hfind].
  pose proof (find_by_id_toggled _ _ _ _ Hfind) as Hfind'.
  assert (Hl : exercises !! index = Some exercise)
    by (now apply list_find_Some in Hfind).
  exists index, exercise, (toggle exercise).
  eexists. eexists.
  split; [exact Hfind |]. split; [exact Hl |]. split.
  { unfold toggleExerciseCompletion. rewrite Hday. cbn [negb].
    rewrite Hseq, Hfind. reflexivity. }
  split.
  { cbn. apply lookup_insert_eq. }
  split.
  { apply list_lookup_insert_eq. now apply lookup_lt_Some in Hl. }
  do 6 (split; [reflexivity |]).
  split.
  { unfold toggleExerciseCompletion. rewrite Hday. cbn [negb].
    cbn [commit _saveToStorage this_weeklyPlan weeklyPlan].
    rewrite lookup_insert_eq, Hfind'. reflexivity. }
  assert (E : <[toLowerCase day :=
                 <[index := toggle (toggle exercise)]>
                   (<[index := toggle exercise]> exercises)]>
              (<[toLowerCase day := <[index := toggle exercise]> exercises]>
                 (weeklyPlan (this_weeklyPlan this)))
              = weeklyPlan (this_weeklyPlan this)).
  { rewrite insert_insert_eq, list_insert_insert_eq, toggle_involutive.
    rewrite (list_insert_id _ _ _ Hl). now apply insert_id. }
  cbn [commit _saveToStorage this_weeklyPlan weeklyPlan].
  rewrite E. split; [exact Hseq |]. split.
  { rewrite list_insert_insert_eq, (list_insert_id _ _ _ Hl). exact Hseq. }
  split; [| reflexivity].
  cbn [toggle completed]. now rewrite negb_involutive.
Qed.

(** C5 on the scenario: Squats added on Monday, not completed, then
    toggled twice: completed after the first call, not completed after
    the second. *)
Lemma toggle_twice_restores_witness :
  days_includes (toLowerCase "Monday") = true /\
  weeklyPlan (this_weeklyPlan squats_planner) !! toLowerCase "Monday"
  = Some [squats] /\
  (exists ex, ex ∈ [squats] /\ id ex = id squats) /\
  completed squats = false /\
  exists index exercise flipped this1 this2,
    list_find (fun ex => id ex = id squats) [squats]
    = Some (index, exercise) /\
    [squats] !! index = Some exercise /\
    toggleExerciseCompletion sample_env "Monday" (id squats) squats_planner
    = Return true this1 /\
    weeklyPlan (this_weeklyPlan this1) !! toLowerCase "Monday"
    = Some (<[index := flipped]> [squats]) /\
    <[index := flipped]> [squats] !! index = Some flipped /\
    completed flipped = negb (completed exercise) /\
    id flipped = id exercise /\
    name flipped = name exercise /\
    sets flipped = sets exercise /\
    reps flipped = reps exercise /\
    addedAt flipped = addedAt exercise /\
    toggleExerciseCompletion sample_env "Monday" (id squats) this1
    = Return true this2 /\
    weeklyPlan (this_weeklyPlan this2) !! toLowerCase "Monday"
    = Some [squats] /\
    weeklyPlan (this_weeklyPlan this2) !! toLowerCase "Monday"
    = Some (<[index := exercise]> (<[index := flipped]> [squats])) /\
    completed exercise = negb (completed flipped) /\
    weeklyPlan (this_weeklyPlan this2)
    = weeklyPlan (this_weeklyPlan squats_planner).
Proof.
  assert (H1 : days_includes (toLowerCase "Monday") = true) by reflexivity.
  assert (H2 : weeklyPlan (this_weeklyPlan squats_planner)
               !! toLowerCase "Monday" = Some [squats]) by reflexivity.
  assert (H3 : exists ex, ex ∈ [squats] /\ id ex = id squats)
    by (exists squats; split; [apply list_elem_of_here | reflexivity]).
  split; [exact H1 |]. split; [exact H2 |]. split; [exact H3 |].
  split; [reflexivity |].
  exact (toggle_twice_restores sample_env sample_env "Monday" (id squats)
           squats_planner [squats] H1 H2 H3).
Defined.

(** C6: [removeExercise] returns false and leaves the planner as it is
    when the day is not a day of the week, and when the day's sequence has
    no exercise with the id; when it has one, the call returns true and
    the first such entry, and nothing else, is gone from that day. *)
Theorem removeExercise_spec (env : Env) (day exerciseId : string)
    (this : Planner) :
  (days_includes (toLowerCase day) = false ->
   removeExercise env day exerciseId this = Return false this) /\
  (forall exercises,
     days_includes (toLowerCase day) = true ->
     weeklyPlan (this_weeklyPlan this) !! toLowerCase day = Some exercises ->
     Forall (fun ex => id ex <> exerciseId) exercises ->
     removeExercise env day exerciseId this = Return false this) /\
  (forall exercises,
     days_includes (toLowerCase day) = true ->
     weeklyPlan (this_weeklyPlan this) !! toLowerCase day = Some exercises ->
     (exists ex, ex ∈ exercises /\ id ex = exerciseId) ->
     exists before exercise after this',
       exercises = before ++ exercise :: after /\
       id exercise = exerciseId /\
       Forall (fun ex => id ex <> exerciseId) before /\
       removeExercise env day exerciseId this = Return true this' /\
       weeklyPlan (this_weeklyPlan this')
       = <[toLowerCase day := before ++ after]>
           (weeklyPlan (this_weeklyPlan this)) /\
       lastModified (this_weeklyPlan this') = Some (modified_at env)).
Proof.
  split; [| split].
  - intros Hday. unfold removeExercise. now rewrite Hday.
  - intros exercises Hday Hseq Hnone. unfold removeExercise.
    rewrite Hday. cbn [negb]. rewrite Hseq.
    apply (list_find_None (fun ex => id ex = exerciseId)) in Hnone.
    now rewrite Hnone.
  - intros exercises Hday Hseq (ex & Hin & Hid).
    destruct (list_find_elem_of (fun ex => id ex = exerciseId) exercises ex
                Hin Hid) as [[index exercise] Hfind].
    destruct (find_by_id_split _ _ _ _ Hfind)
      as (before & after & -> & Hlen & Hid' & Hbefore).
    exists before, exercise, after. eexists.
    split; [reflexivity |]. split; [exact Hid' |]. split; [exact Hbefore |].
    split.
    { unfold removeExercise. rewrite Hday. cbn [negb].
      rewrite Hseq, Hfind. reflexivity. }
    cbn [commit _saveToStorage this_weeklyPlan weeklyPlan lastModified].
    split; [| reflexivity]. f_equal.
    rewrite <- Hlen. apply delete_middle.
Qed.

(** C6 on the sample planner: an unknown day and an unknown id are
    refused and change nothing. *)
Lemma removeExercise_spec_witness :
  removeExercise sample_env "Funday" (id squats) squats_planner
  = Return false squats_planner /\
  removeExercise sample_env "Monday" "ex_0" squats_planner
  = Return false squats_planner.
Proof.
  split.
  - apply (proj1 (removeExercise_spec sample_env "Funday" (id squats)
                    squats_planner)).
    reflexivity.
  - apply (proj1 (proj2 (removeExercise_spec sample_env "Monday" "ex_0"
                           squats_planner)) [squats]);
      [reflexivity | reflexivity |].
    apply Forall_cons. split; [discriminate | apply Forall_nil_2].
Defined.

(** Removing the exercise that is there empties the day. *)
Example removeExercise_present :
  exists this',
    removeExercise sample_env "Monday" (id squats) squats_planner
    = Return true this' /\
    weeklyPlan (this_weeklyPlan this') !! "monday" = Some [].
Proof. eexists. split; [vm_compute; reflexivity | reflexivity]. Qed.

(** C7: [addExercise] fails with the error of the first check that
    fails, in the order name, sets, reps, day; and it fails whenever one
    of the four checks fails, leaving the planner as it is. *)
Theorem addExercise_first_error (env : Env)
    (day exerciseName sets reps : string) (this : Planner) :
  (isNotEmpty (JsStr exerciseName) = false ->
   addExercise env day exerciseName sets reps this
   = Return (Failure "Please enter an exercise name") this) /\
  (isNotEmpty (JsStr exerciseName) = true ->
   isPositiveNumber sets = false ->
   addExercise env day exerciseName sets reps this
   = Return (Failure "Sets must be a positive number") this) /\
  (isNotEmpty (JsStr exerciseName) = true ->
   isPositiveNumber sets = true ->
   isPositiveNumber reps = false ->
   addExercise env day exerciseName sets reps this
   = Return (Failure "Reps must be a positive number") this) /\
  (isNotEmpty (JsStr exerciseName) = true ->
   isPositiveNumber sets = true ->
   isPositiveNumber reps = true ->
   days_includes (toLowerCase day) = false ->
   addExercise env day exerciseName sets reps this
   = Return (Failure "Please select a valid day of the week") this) /\
  (isNotEmpty (JsStr exerciseName) && isPositiveNumber sets
     && isPositiveNumber reps && days_includes (toLowerCase day) = false ->
   exists error,
     addExercise env day exerciseName sets reps this
     = Return (Failure error) this).
Proof.
  unfold addExercise, _validateExerciseInput.
  repeat split.
  - now intros ->.
  - now intros -> ->.
  - now intros -> -> ->.
  - now intros -> -> -> ->.
  - destruct (isNotEmpty (JsStr exerciseName)); [| eauto].
    destruct (isPositiveNumber sets); [| eauto].
    destruct (isPositiveNumber reps); [| eauto].
    destruct (days_includes (toLowerCase day)); [discriminate | eauto].
Qed.

(** C7 on inputs that fail several checks at once: with all four wrong
    the name is reported; with a good name, the sets; then the reps; then
    the day. *)
Lemma addExercise_first_error_witness :
  addExercise sample_env "Funday" "   " "-1" "abc" fresh_planner
  = Return (Failure "Please enter an exercise name") fresh_planner /\
  addExercise sample_env "Funday" "Squats" "-1" "abc" fresh_planner
  = Return (Failure "Sets must be a positive number") fresh_planner /\
  addExercise sample_env "Funday" "Squats" "3" "abc" fresh_planner
  = Return (Failure "Reps must be a positive number") fresh_planner /\
  addExercise sample_env "Funday" "Squats" "3" "10" fresh_planner
  = Return (Failure "Please select a valid day of the week") fresh_planner.
Proof.
  split; [| split; [| split]].
  - apply (addExercise_first_error sample_env "Funday" "   " "-1" "abc").
    reflexivity.
  - apply (addExercise_first_error sample_env "Funday" "Squats" "-1" "abc");
      reflexivity.
  - apply (addExercise_first_error sample_env "Funday" "Squats" "3" "abc");
      reflexivity.
  - apply (addExercise_first_error sample_env "Funday" "Squats" "3" "10");
      reflexivity.
Defined.

(** C1 fails in the code: the input sets = "0.5" passes the validation
    (0.5 is a positive number) and the exercise is stored with
    [sets = parseInt("0.5") = 0], which is not positive. *)
Theorem addExercise_fractional_sets (env : Env) :
  isNotEmpty (JsStr "Squats") = true /\
  isPositiveNumber "0.5" = true /\
  isPositiveNumber "10" = true /\
  exists exercise this',
    addExercise env "Monday" "Squats" "0.5" "10" fresh_planner
    = Return (Success exercise) this' /\
    weeklyPlan (this_weeklyPlan this') !! "monday" = Some [exercise] /\
    sets exercise = JsNum 0%float /\
    forall x, sets exercise = JsNum x -> (0 <? x)%float = false.
Proof.
  repeat split. eexists. eexists.
  split; [vm_compute; reflexivity |].
  split; [reflexivity |]. split; [reflexivity |].
  intros x [= <-]. reflexivity.
Qed.

(** Other inputs that the validation accepts: [".5"] and ["Infinity"] are
    stored as NaN, ["1e3"] as 1 and ["7.9"] as 7. *)
Example accepted_sets_as_stored :
  (isPositiveNumber ".5" = true /\ isNaN (parseInt ".5") = true) /\
  (isPositiveNumber "Infinity" = true /\ isNaN (parseInt "Infinity") = true) /\
  (isPositiveNumber "1e3" = true /\ parseInt "1e3" = 1%float) /\
  (isPositiveNumber "7.9" = true /\ parseInt "7.9" = 7%float).
Proof. repeat split; vm_compute; reflexivity. Qed.

(** The cases of the validator that the specification lists. *)
Example validator_cases :
  isPositiveNumber "0" = false /\ isPositiveNumber "-0.1" = false /\
  isPositiveNumber "abc" = false /\ isPositiveNumber "null" = false /\
  isPositiveNumber "undefined" = false /\ isPositiveNumber "5" = true /\
  isPositiveNumber "0.1" = true /\ isPositiveNumber "10" = true /\
  isNotEmpty (JsStr "") = false /\ isNotEmpty (JsStr "   ") = false /\
  isNotEmpty (JsStr "a") = true /\ isNotEmpty (JsNum 123) = false.
Proof. repeat split; vm_compute; reflexivity. Qed.

End Planner.

(** ** The order of binary64 values *)

Section SpecFloatKeys.
Import FloatKey.
Local Open Scope Z_scope.

Lemma SFltb_key (a b : spec_float) :
  SFltb a b = true <->
  a <> S754_nan /\ b <> S754_nan /\ key_lt (sf_key a) (sf_key b).
Proof.
  unfold SFltb.
  destruct a as [[|] | [|] | | [|] ma ea], b as [[|] | [|] | | [|] mb eb];
    cbn; try (split; [discriminate | intros (? & ? & ?); (congruence || lia)]);
    try (split; [intros _; repeat split; (discriminate || lia) | reflexivity]).
  - fold (Pos.compare ma mb).
    destruct (Z.compare_spec ea eb), (Pos.compare_spec ma mb); cbn;
      (split; [try discriminate; intros _; repeat split; (discriminate || lia)
              | intros (_ & _ & ?); (reflexivity || lia)]).
  - fold (Pos.compare ma mb).
    destruct (Z.compare_spec ea eb), (Pos.compare_spec ma mb); cbn;
      (split; [try discriminate; intros _; repeat split; (discriminate || lia)
              | intros (_ & _ & ?); (reflexivity || lia)]).
Qed.

Lemma SFleb_key (a b : spec_float) :
  SFleb a b = true <->
  a <> S754_nan /\ b <> S754_nan /\ key_le (sf_key a) (sf_key b).
Proof.
  unfold SFleb.
  destruct a as [[|] | [|] | | [|] ma ea], b as [[|] | [|] | | [|] mb eb];
    cbn; try (split; [discriminate | intros (? & ? & ?); (congruence || lia)]);
    try (split; [intros _; repeat split; (discriminate || lia) | reflexivity]).
  - fold (Pos.compare ma mb).
    destruct (Z.compare_spec ea eb), (Pos.compare_spec ma mb); cbn;
      (split; [try discriminate; intros _; repeat split; (discriminate || lia)
              | intros (_ & _ & ?); (reflexivity || lia)]).
  - fold (Pos.compare ma mb).
    destruct (Z.compare_spec ea eb), (Pos.compare_spec ma mb); cbn;
      (split; [try discriminate; intros _; repeat split; (discriminate || lia)
              | intros (_ & _ & ?); (reflexivity || lia)]).
Qed.

Lemma SFeqb_key (a b : spec_float) :
  SFeqb a b = true ->
  a <> S754_nan /\ b <> S754_nan /\ sf_key a = sf_key b.
Proof.
  unfold SFeqb.
  destruct a as [[|] | [|] | | [|] ma ea], b as [[|] | [|] | | [|] mb eb];
    cbn; try discriminate; try (intros _; repeat split; discriminate).
  - fold (Pos.compare ma mb).
    destruct (Z.compare_spec ea eb), (Pos.compare_spec ma mb); cbn;
      try discriminate. intros _. subst. repeat split; discriminate.
  - fold (Pos.compare ma mb).
    destruct (Z.compare_spec ea eb), (Pos.compare_spec ma mb); cbn;
      try discriminate. intros _. subst. repeat split; discriminate.
Qed.

Lemma SFeqb_refl (s : spec_float) : SFeqb s s = true <-> s <> S754_nan.
Proof.
  unfold SFeqb.
  destruct s as [[|] | [|] | | [|] m e]; cbn;
    try (split; [discriminate | congruence]);
    try (split; [discriminate | reflexivity]).
  - rewrite Z.compare_refl. fold (Pos.compare m m). rewrite Pos.compare_refl.
    cbn. split; [discriminate | reflexivity].
  - rewrite Z.compare_refl. fold (Pos.compare m m). rewrite Pos.compare_refl.
    split; [discriminate | reflexivity].
Qed.

End SpecFloatKeys.

Section FloatKeys.
Import FloatKey.
Local Open Scope float_scope.

Lemma isNaN_false_iff (x : float) :
  isNaN x = false <-> Prim2SF x <> S754_nan.
Proof.
  unfold isNaN, is_nan. rewrite FloatAxioms.eqb_spec, negb_false_iff.
  apply SFeqb_refl.
Qed.

Lemma isNaN_true_iff (x : float) : isNaN x = true <-> x = nan.
Proof.
  split.
  - intros H. destruct (Prim2SF x) eqn:E.
    1, 2, 4: assert (F : isNaN x = false)
      by (apply isNaN_false_iff; rewrite E; discriminate); congruence.
    rewrite <- (FloatAxioms.SF2Prim_Prim2SF x), E. reflexivity.
  - intros ->. reflexivity.
Qed.

Lemma ltb_key (x y : float) :
  (x <? y) = true <->
  isNaN x = false /\ isNaN y = false /\ key_lt (fkey x) (fkey y).
Proof. rewrite ltb_SF, SFltb_key, !isNaN_false_iff. reflexivity. Qed.

Lemma leb_key (x y : float) :
  (x <=? y) = true <->
  isNaN x = false /\ isNaN y = false /\ key_le (fkey x) (fkey y).
Proof. rewrite leb_SF, SFleb_key, !isNaN_false_iff. reflexivity. Qed.

Lemma eqb_key (x y : float) :
  (x =? y) = true ->
  isNaN x = false /\ isNaN y = false /\ fkey x = fkey y.
Proof.
  rewrite FloatAxioms.eqb_spec, !isNaN_false_iff. apply SFeqb_key.
Qed.

Lemma ltb_false_key (x y : float) :
  isNaN x = false -> isNaN y = false ->
  (x <? y) = false -> ~ key_lt (fkey x) (fkey y).
Proof.
  intros Hx Hy H K. assert (T : (x <? y) = true) by (now apply ltb_key).
  congruence.
Qed.

Lemma leb_false_key (x y : float) :
  isNaN x = false -> isNaN y = false ->
  (x <=? y) = false -> ~ key_le (fkey x) (fkey y).
Proof.
  intros Hx Hy H K. assert (T : (x <=? y) = true) by (now apply leb_key).
  congruence.
Qed.

Lemma fkey_0 : fkey 0 = (0, 0, 0)%Z.
Proof. vm_compute. reflexivity. Qed.
Lemma fkey_1 : fkey 1 = (1, -52, 4503599627370496)%Z.
Proof. vm_compute. reflexivity. Qed.
Lemma fkey_12 : fkey 12 = (1, -49, 6755399441055744)%Z.
Proof. vm_compute. reflexivity. Qed.
Lemma fkey_185 : fkey 18.5 = (1, -48, 5207287069147136)%Z.
Proof. vm_compute. reflexivity. Qed.
Lemma fkey_25 : fkey 25 = (1, -48, 7036874417766400)%Z.
Proof. vm_compute. reflexivity. Qed.
Lemma fkey_30 : fkey 30 = (1, -48, 8444249301319680)%Z.
Proof. vm_compute. reflexivity. Qed.
Lemma fkey_150 : fkey 150 = (1, -45, 5277655813324800)%Z.
Proof. vm_compute. reflexivity. Qed.
Lemma fkey_300 : fkey 300 = (1, -44, 5277655813324800)%Z.
Proof. vm_compute. reflexivity. Qed.
Lemma fkey_500 : fkey 500 = (1, -44, 8796093022208000)%Z.
Proof. vm_compute. reflexivity. Qed.

End FloatKeys.

Ltac float_keys :=
  repeat match goal with
  | H : (_ <? _)%float = true |- _ => apply ltb_key in H as (? & ? & H)
  | H : (_ <=? _)%float = true |- _ => apply leb_key in H as (? & ? & H)
  | H : (_ =? _)%float = true |- _ => apply eqb_key in H as (? & ? & H)
  | H : (_ <? _)%float = false |- _ =>
      apply ltb_false_key in H; [| assumption || reflexivity ..]
  | H : (_ <=? _)%float = false |- _ =>
      apply leb_false_key in H; [| assumption || reflexivity ..]
  end.

Ltac key_lia :=
  rewrite ?fkey_0, ?fkey_1, ?fkey_12, ?fkey_185, ?fkey_25, ?fkey_30,
    ?fkey_150, ?fkey_300, ?fkey_500 in *;
  repeat match goal with
  | |- context [FloatKey.fkey ?x] =>
      destruct (FloatKey.fkey x) as [[? ?] ?]
  | H : context [FloatKey.fkey ?x] |- _ =>
      destruct (FloatKey.fkey x) as [[? ?] ?]
  end;
  unfold FloatKey.key_lt, FloatKey.key_le in *;
  repeat match goal with
  | H : (_, _, _) = (_, _, _) |- _ => injection H as ? ? ?
  end;
  lia.

Section ValidatorRanges.
Import Validator ValidatorMore FloatKey.
Local Open Scope float_scope.

Lemma one_le_positive (x : float) : (1 <=? x) = true -> (0 <? x) = true.
Proof.
  intros H. apply ltb_key. pose proof H as H'.
  apply leb_key in H' as (_ & Hx & _).
  split; [reflexivity |]. split; [exact Hx |]. float_keys. key_lia.
Qed.

(** X13: in [isValidAge], [isValidWeight] and [isValidHeight] the
    positivity check adds nothing: each is the range check from 1 to 150,
    500 and 300. *)
Theorem range_check_subsumes_positivity (value : string) :
  isValidAge value = isInRange value 1 150 /\
  isValidWeight value = isInRange value 1 500 /\
  isValidHeight value = isInRange value 1 300.
Proof.
  unfold isValidAge, isValidWeight, isValidHeight, isPositiveNumber, isInRange.
  destruct (isNaN (parseFloat value)); cbn [negb andb]; [auto |].
  destruct (1 <=? parseFloat value) eqn:H; cbn [andb].
  - rewrite (one_le_positive _ H). auto.
  - rewrite !andb_false_r. auto.
Qed.
End ValidatorRanges.

(** ** Trimming *)

Section Trim.
Local Open Scope list_scope.

Lemma trimStartL_fixed (l : list ascii) :
  match l with [] => True | c :: _ => is_whitespace c = false end ->
  trimStartL l = l.
Proof. destruct l as [| c r]; [reflexivity |]. cbn. now intros ->. Qed.

Lemma trimStartL_head (l : list ascii) :
  match trimStartL l with [] => True | c :: _ => is_whitespace c = false end.
Proof.
  induction l as [| c r IH]; [exact I |]. cbn.
  destruct (is_whitespace c) eqn:E; [exact IH | exact E].
Qed.

Lemma trimStartL_snoc (l : list ascii) (c : ascii) :
  is_whitespace c = false -> trimStartL (l ++ [c]) = trimStartL l ++ [c].
Proof.
  intros Hc. induction l as [| a r IH]; cbn.
  - now rewrite Hc.
  - destruct (is_whitespace a); [exact IH | reflexivity].
Qed.

Lemma trimEndL_cons (c : ascii) (r : list ascii) :
  is_whitespace c = false -> trimEndL (c :: r) = c :: trimEndL r.
Proof.
  intros Hc. unfold trimEndL. cbn [rev].
  rewrite trimStartL_snoc by exact Hc.
  rewrite rev_app_distr. reflexivity.
Qed.

Lemma trimStartL_idem (l : list ascii) :
  trimStartL (trimStartL l) = trimStartL l.
Proof. apply trimStartL_fixed, trimStartL_head. Qed.

Lemma trimEndL_idem (l : list ascii) : trimEndL (trimEndL l) = trimEndL l.
Proof. unfold trimEndL. now rewrite rev_involutive, trimStartL_idem. Qed.

Lemma trimEndL_last (l : list ascii) :
  match rev (trimEndL l) with
  | [] => True
  | c :: _ => is_whitespace c = false
  end.
Proof. unfold trimEndL. rewrite rev_involutive. apply trimStartL_head. Qed.

Lemma trimL_head (l : list ascii) :
  match trimL l with [] => True | c :: _ => is_whitespace c = false end.
Proof.
  unfold trimL. pose proof (trimStartL_head l) as H.
  destruct (trimStartL l) as [| c r]; [exact I |].
  now rewrite trimEndL_cons.
Qed.

Lemma trimL_idem (l : list ascii) : trimL (trimL l) = trimL l.
Proof.
  unfold trimL at 1. rewrite (trimStartL_fixed (trimL l)) by apply trimL_head.
  unfold trimL. apply trimEndL_idem.
Qed.

Lemma trim_list (s : string) :
  list_ascii_of_string (trim s) = trimL (list_ascii_of_string s).
Proof. unfold trim. apply list_ascii_of_string_of_list_ascii. Qed.

Lemma trim_idem (s : string) : trim (trim s) = trim s.
Proof.
  unfold trim at 1. rewrite trim_list.
  fold (trimL (trimL (list_ascii_of_string s))).
  rewrite trimL_idem. reflexivity.
Qed.

Lemma trimStartL_nil (l : list ascii) :
  trimStartL l = [] <-> Forall (fun c => is_whitespace c = true) l.
Proof.
  induction l as [| c r IH]; cbn.
  - split; [constructor | reflexivity].
  - destruct (is_whitespace c) eqn:E.
    + rewrite IH. split; [now constructor | now inversion 1].
    + split; [discriminate | inversion 1; congruence].
Qed.

Lemma trimL_nil (l : list ascii) : trimL l = [] <-> trimStartL l = [].
Proof.
  unfold trimL. pose proof (trimStartL_head l) as H.
  destruct (trimStartL l) as [| c r]; [split; reflexivity |].
  rewrite trimEndL_cons by exact H. split; discriminate.
Qed.

Lemma length_string_of_list (l : list ascii) :
  String.length (string_of_list_ascii l) = length l.
Proof. induction l as [| c r IH]; cbn; [reflexivity | now rewrite IH]. Qed.

Lemma string_nil_list (s : string) : s = "" <-> list_ascii_of_string s = [].
Proof. destruct s; cbn; split; (reflexivity || discriminate). Qed.

(** A string is blank after trimming exactly when all its code units are
    white space. *)
Lemma trim_empty (s : string) :
  trim s = "" <->
  Forall (fun c => is_whitespace c = true) (list_ascii_of_string s).
Proof. now rewrite string_nil_list, trim_list, trimL_nil, trimStartL_nil. Qed.

End Trim.

Section ValidatorBlank.
Import Validator ValidatorMore FloatKey.
Local Open Scope float_scope.

(** X14: [isNotEmpty] holds exactly for a string with a code unit that
    is not white space; it fails for every value that is not a string and
    for every string of white space only. *)
Theorem isNotEmpty_iff (value : JsValue) :
  isNotEmpty value = true <->
  exists s c,
    value = JsStr s /\ c ∈ list_ascii_of_string s /\ is_whitespace c = false.
Proof.
  destruct value as [| | b | x | s]; cbn [isNotEmpty];
    try (split; [discriminate | intros (s & c & H & _); discriminate]).
  rewrite Nat.ltb_lt. split.
  - intros Hlen.
    destruct (decide (Forall (fun c => is_whitespace c = true)
                        (list_ascii_of_string s))) as [Hall | Hnot].
    + apply trim_empty in Hall. rewrite Hall in Hlen. cbn in Hlen. lia.
    + apply not_Forall_Exists in Hnot; [| intros c; apply _].
      apply Exists_exists in Hnot as (c & Hin & Hc).
      exists s, c. split; [reflexivity |]. split; [exact Hin |].
      now apply not_true_is_false.
  - intros (s' & c & [= <-] & Hin & Hc).
    destruct (trim s) eqn:E; [| cbn; lia].
    apply trim_empty in E. rewrite Forall_forall in E.
    specialize (E c Hin). congruence.
Qed.

(** A blank text is not a number. *)
Lemma blank_not_a_number (s : string) : trim s = "" -> parseFloat s = nan.
Proof.
  intros H. apply string_nil_list in H. rewrite trim_list in H.
  apply trimL_nil in H. unfold parseFloat. rewrite H. reflexivity.
Qed.
End ValidatorBlank.

Section NaNFacts.
Local Open Scope float_scope.

Lemma SF_nan_float (x : float) : Prim2SF x = S754_nan -> x = nan.
Proof.
  intros E. rewrite <- (FloatAxioms.SF2Prim_Prim2SF x), E. reflexivity.
Qed.

(** NaN is absorbing for the four operations. *)
Lemma nan_absorbs (x : float) :
  x + nan = nan /\ nan + x = nan /\ x - nan = nan /\ nan - x = nan /\
  x * nan = nan /\ nan * x = nan /\ x / nan = nan /\ nan / x = nan.
Proof.
  repeat split; apply SF_nan_float;
    rewrite ?FloatAxioms.add_spec, ?FloatAxioms.sub_spec,
      ?FloatAxioms.mul_spec, ?FloatAxioms.div_spec;
    change (Prim2SF nan) with S754_nan;
    destruct (Prim2SF x) as [[|] | [|] | | [|] m e]; reflexivity.
Qed.

Lemma add_nan_r x : x + nan = nan.
Proof. apply nan_absorbs. Qed.
Lemma add_nan_l x : nan + x = nan.
Proof. apply nan_absorbs. Qed.
Lemma sub_nan_r x : x - nan = nan.
Proof. apply nan_absorbs. Qed.
Lemma sub_nan_l x : nan - x = nan.
Proof. apply nan_absorbs. Qed.
Lemma mul_nan_r x : x * nan = nan.
Proof. apply nan_absorbs. Qed.
Lemma mul_nan_l x : nan * x = nan.
Proof. apply nan_absorbs. Qed.
Lemma div_nan_r x : x / nan = nan.
Proof. apply nan_absorbs. Qed.
Lemma div_nan_l x : nan / x = nan.
Proof. apply nan_absorbs. Qed.
End NaNFacts.

Create Rewrite HintDb nan_arith.
#[global] Hint Rewrite add_nan_r add_nan_l sub_nan_r sub_nan_l mul_nan_r
  mul_nan_l div_nan_r div_nan_l : nan_arith.

Section FormAcceptance.
Import Validator ValidatorMore FloatKey BMICalculator.
Local Open Scope float_scope.

Lemma positive_Number (x : float) : isPositiveNumber_Number x = (0 <? x).
Proof.
  unfold isPositiveNumber_Number, parseFloat_Number.
  destruct (x =? 0) eqn:Z.
  - change (negb (isNaN 0) && (0 <? 0)) with false. symmetry.
    destruct (0 <? x) eqn:P; [| reflexivity]. exfalso. float_keys. key_lia.
  - destruct (0 <? x) eqn:P; [| apply andb_false_r].
    apply ltb_key in P as (_ & Hx & _). now rewrite Hx.
Qed.

Lemma in_range_Number (x hi : float) :
  isPositiveNumber_Number x && isInRange_Number x 1 hi
  = (1 <=? x) && (x <=? hi).
Proof.
  rewrite positive_Number. unfold isInRange_Number, parseFloat_Number.
  destruct (x =? 0) eqn:Z.
  - assert (H1 : (1 <=? x) = false).
    { destruct (1 <=? x) eqn:P; [| reflexivity]. exfalso.
      float_keys. key_lia. }
    rewrite H1. change (1 <=? 0) with false.
    now rewrite andb_false_r.
  - destruct (1 <=? x) eqn:P; [| now rewrite !andb_false_r].
    rewrite (one_le_positive _ P).
    apply leb_key in P as (_ & Hx & _). now rewrite Hx.
Qed.

Lemma blank_trim (s : string) :
  String.eqb s "" || String.eqb (trim s) "" = true -> trim s = "".
Proof.
  intros [H | H]%orb_true_iff; apply String.eqb_eq in H;
    [now subst | exact H].
Qed.

Lemma number_not_blank (s : string) :
  isNaN (parseFloat s) = false ->
  String.eqb s "" || String.eqb (trim s) "" = false.
Proof.
  intros H. destruct (_ || _) eqn:B; [| reflexivity].
  apply blank_trim, blank_not_a_number in B. rewrite B in H. discriminate.
Qed.

(** X15: the BMI form accepts a weight and a height exactly when both
    fields are there and parse to numbers with 1 <= weight <= 500 and
    1 <= height <= 300. *)
Theorem bmi_validation_accepts (weight height : option string) :
  BMIForm._validateInputs weight height = BMIForm.Valid <->
  exists w h,
    weight = Some w /\ height = Some h /\
    (1 <=? parseFloat w) = true /\ (parseFloat w <=? 500) = true /\
    (1 <=? parseFloat h) = true /\ (parseFloat h <=? 300) = true.
Proof.
  unfold BMIForm._validateInputs, isValidWeight_Number, isValidHeight_Number.
  split.
  - destruct weight as [w |]; cbn [BMIForm.blank]; [| discriminate].
    destruct (String.eqb w "" || String.eqb (trim w) ""); [discriminate |].
    destruct height as [h |]; cbn [BMIForm.blank]; [| discriminate].
    destruct (String.eqb h "" || String.eqb (trim h) ""); [discriminate |].
    cbn [default from_option Datatypes.id].
    destruct (isNaN (parseFloat w)); [discriminate |].
    destruct (isNaN (parseFloat h)); [discriminate |].
    destruct (isPositiveNumber w); cbn [negb]; [| discriminate].
    destruct (isPositiveNumber h); cbn [negb]; [| discriminate].
    rewrite !in_range_Number.
    destruct (1 <=? parseFloat w) eqn:W1; cbn [andb negb]; [| discriminate].
    destruct (parseFloat w <=? 500) eqn:W2; cbn [andb negb];
      [| discriminate].
    destruct (1 <=? parseFloat h) eqn:H1; cbn [andb negb]; [| discriminate].
    destruct (parseFloat h <=? 300) eqn:H2; cbn [andb negb];
      [| discriminate].
    intros _. exists w, h. repeat split; assumption.
  - intros (w & h & -> & -> & Hw1 & Hw2 & Hh1 & Hh2).
    assert (Nw : isNaN (parseFloat w) = false)
      by (now apply leb_key in Hw1 as (_ & ? & _)).
    assert (Nh : isNaN (parseFloat h) = false)
      by (now apply leb_key in Hh1 as (_ & ? & _)).
    cbn [BMIForm.blank default from_option Datatypes.id].
    rewrite (number_not_blank _ Nw), (number_not_blank _ Nh), Nw, Nh.
    unfold isPositiveNumber. rewrite Nw, Nh.
    rewrite (one_le_positive _ Hw1), (one_le_positive _ Hh1).
    cbn [negb andb]. rewrite !in_range_Number, Hw1, Hw2, Hh1, Hh2.
    reflexivity.
Qed.

(** X16: the calorie form accepts its inputs exactly when the five
    fields are there, gender and activity level are not empty, and age,
    weight and height parse to numbers above 0; there is no upper bound. *)
Theorem calorie_validation_accepts
    (age gender weight height activityLevel : option string) :
  CalorieForm._validateInputs age gender weight height activityLevel
  = CalorieForm.Valid <->
  exists a g w h l,
    age = Some a /\ gender = Some g /\ weight = Some w /\
    height = Some h /\ activityLevel = Some l /\
    g <> "" /\ l <> "" /\
    (0 <? parseFloat a) = true /\ (0 <? parseFloat w) = true /\
    (0 <? parseFloat h) = true.
Proof.
  unfold CalorieForm._validateInputs. split.
  - destruct age as [a |]; cbn [BMIForm.blank orb]; [| discriminate].
    destruct (String.eqb a "" || String.eqb (trim a) ""); cbn [orb];
      [discriminate |].
    destruct gender as [g |]; cbn [CalorieForm.missing orb]; [| discriminate].
    destruct (String.eqb g "") eqn:Hg; cbn [orb]; [discriminate |].
    destruct weight as [w |]; cbn [BMIForm.blank orb]; [| discriminate].
    destruct (String.eqb w "" || String.eqb (trim w) ""); cbn [orb];
      [discriminate |].
    destruct height as [h |]; cbn [BMIForm.blank orb]; [| discriminate].
    destruct (String.eqb h "" || String.eqb (trim h) ""); cbn [orb];
      [discriminate |].
    destruct activityLevel as [l |]; cbn [CalorieForm.missing];
      [| discriminate].
    destruct (String.eqb l "") eqn:Hl; [discriminate |].
    cbn [default from_option Datatypes.id].
    destruct (isNaN (parseFloat a)); [discriminate |].
    destruct (isNaN (parseFloat w)); [discriminate |].
    destruct (isNaN (parseFloat h)); [discriminate |].
    rewrite !positive_Number.
    destruct (0 <? parseFloat a) eqn:Pa; cbn [negb]; [| discriminate].
    destruct (0 <? parseFloat w) eqn:Pw; cbn [negb]; [| discriminate].
    destruct (0 <? parseFloat h) eqn:Ph; cbn [negb]; [| discriminate].
    intros _. exists a, g, w, h, l.
    apply String.eqb_neq in Hg, Hl. repeat split; assumption.
  - intros (a & g & w & h & l & -> & -> & -> & -> & -> & Hg & Hl
            & Ha & Hw & Hh).
    assert (Na : isNaN (parseFloat a) = false)
      by (now apply ltb_key in Ha as (_ & ? & _)).
    assert (Nw : isNaN (parseFloat w) = false)
      by (now apply ltb_key in Hw as (_ & ? & _)).
    assert (Nh : isNaN (parseFloat h) = false)
      by (now apply ltb_key in Hh as (_ & ? & _)).
    apply String.eqb_neq in Hg, Hl.
    cbn [BMIForm.blank CalorieForm.missing default from_option Datatypes.id].
    rewrite (number_not_blank _ Na), (number_not_blank _ Nw),
      (number_not_blank _ Nh), Hg, Hl, Na, Nw, Nh.
    cbn [orb]. rewrite !positive_Number, Ha, Hw, Hh. reflexivity.
Qed.
End FormAcceptance.

Section FormInches.
Import Validator ValidatorMore FloatKey BMICalculator BMIForm UnitConverter.
Local Open Scope float_scope.

(** X17: in feet mode with valid weight and height and a number in the
    inches field, the BMI form refuses inches of 12 or more and inches
    below 0, each with its own message, and for inches from 0 up to, not
    including, 12 it shows the result of [calculateBMI] for the feet and
    these inches. *)
Theorem bmi_form_inches (weight weightUnit height : option string)
    (inches : string) :
  _validateInputs weight height = Valid ->
  inches <> "" ->
  ((12 <=? parseFloat inches) = true ->
   _handleCalculate weight weightUnit height (Some "ft") (Some inches)
   = ShowError
       (Text "Inches must be less than 12 (use feet for values 12 and above)"))
  /\
  ((parseFloat inches <? 0) = true ->
   _handleCalculate weight weightUnit height (Some "ft") (Some inches)
   = ShowError (Text "Inches must be a positive number")) /\
  ((0 <=? parseFloat inches) = true -> (parseFloat inches <? 12) = true ->
   _handleCalculate weight weightUnit height (Some "ft") (Some inches)
   = let result :=
       calculateBMI (parseFloat (default "" weight)) (or_else weightUnit "kg")
         (parseFloat (default "" height)) "ft" (parseFloat inches) in
     DisplayResult (bmi result) (category result)).
Proof.
  intros Hv Hi. apply String.eqb_neq in Hi.
  unfold _handleCalculate. rewrite Hv, Hi.
  cbn [or_else String.eqb Ascii.eqb Bool.eqb andb].
  change (String.eqb "ft" "") with false. cbn iota.
  change (String.eqb "ft" "ft") with true. cbn [andb].
  split; [| split].
  - intros H. pose proof H as H'. apply leb_key in H' as (_ & Hn & _).
    now rewrite Hn, H.
  - intros H. pose proof H as H'. apply ltb_key in H' as (Hn & _ & _).
    rewrite Hn, H. cbn [negb andb].
    destruct (12 <=? parseFloat inches) eqn:H12; [| reflexivity].
    exfalso. float_keys. key_lia.
  - intros H0 H12.
    destruct (12 <=? parseFloat inches) eqn:Hge;
      [exfalso; float_keys; key_lia |].
    destruct (parseFloat inches <? 0) eqn:Hlt;
      [exfalso; float_keys; key_lia |].
    now rewrite !andb_false_r.
Qed.
End FormInches.

Section CaloriesMore.
Import CalorieEstimator UnitConverter.
Local Open Scope float_scope.

(** X18: for every activity level that names a member of
    [Object.prototype], and all other inputs, the maintenance, weight-loss
    and weight-gain targets are NaN, while the BMR is the one any other
    level gives. *)
Theorem inherited_key_poisons_targets (age : float) (gender : JsValue)
    (weight : float) (weightUnit : string) (height : float)
    (heightUnit activityLevel : string) (heightInches : float) :
  activityLevel ∈ Object_prototype_names ->
  let r := calculateCalories age gender weight weightUnit height heightUnit
             activityLevel heightInches in
  isNaN (maintenance r) = true /\
  isNaN (weightLoss r) = true /\
  isNaN (weightGain r) = true /\
  bmr r = bmr (calculateCalories age gender weight weightUnit height
                 heightUnit "sedentary" heightInches).
Proof.
  intros Hk r. unfold r, calculateCalories, _calculateTargets.
  cbn [maintenance weightLoss weightGain bmr t_maintenance t_weightLoss
         t_weightGain].
  rewrite (activity_multiplier_inherited _ Hk). cbn [ToNumber].
  autorewrite with nan_arith. repeat split.
Qed.
End CaloriesMore.

Section BMIMonotone.
Import BMICalculator FloatKey.
Local Open Scope float_scope.

(** X19: the classification is monotone: when [a <= b], the category of
    [a] is not above the category of [b] in the order Underweight, Normal,
    Overweight, Obese. *)
Theorem category_monotone (a b : float) :
  (a <=? b) = true ->
  (rank (_determineBMICategory a) <= rank (_determineBMICategory b))%nat.
Proof.
  intros Hab. pose proof Hab as Hab'.
  apply leb_key in Hab' as (Ha & Hb & _).
  unfold _determineBMICategory.
  destruct (a <? 18.5) eqn:A1; [cbn; lia |].
  destruct (18.5 <=? a) eqn:A2; destruct (a <? 25) eqn:A3; cbn [andb].
  - destruct (b <? 18.5) eqn:B1; [exfalso; float_keys; key_lia |].
    destruct (18.5 <=? b) eqn:B2; destruct (b <? 25) eqn:B3; cbn [andb];
      try (cbn; lia);
      destruct (25 <=? b) eqn:B4; destruct (b <? 30) eqn:B5; cbn; lia.
  - destruct (25 <=? a) eqn:A4; destruct (a <? 30) eqn:A5; cbn [andb];
      destruct (b <? 18.5) eqn:B1; try (exfalso; float_keys; key_lia);
      destruct (18.5 <=? b) eqn:B2; destruct (b <? 25) eqn:B3; cbn [andb];
      try (exfalso; float_keys; key_lia);
      destruct (25 <=? b) eqn:B4; destruct (b <? 30) eqn:B5; cbn [andb];
      try (exfalso; float_keys; key_lia); cbn; lia.
  - exfalso; float_keys; key_lia.
  - exfalso; float_keys; key_lia.
Qed.
End BMIMonotone.

Section ValidatorTexts.
Import Validator ValidatorMore FloatKey.
Local Open Scope float_scope.

(** X21: a value that [hasValidLength] accepts with a minimum length of
    at least 1 is one that [isNotEmpty] accepts. *)
Theorem hasValidLength_not_empty (value : JsValue)
    (minLength maxLength : float) :
  hasValidLength value minLength maxLength = true ->
  (1 <=? minLength) = true ->
  isNotEmpty value = true.
Proof.
  destruct value as [| | b | x | s]; cbn [hasValidLength isNotEmpty];
    try discriminate.
  intros H Hmin. apply andb_true_iff in H as [H _].
  destruct (String.length (trim s)) as [| n]; [| reflexivity].
  exfalso. change (of_nat 0) with 0 in H. float_keys. key_lia.
Qed.

(** X20: [getErrorMessage] gives its own sentence with the field name
    for each of the four validation types; for any other type it gives
    ['Invalid input'], unless the type names a member of
    [Object.prototype], which is then returned instead of a text. *)
Theorem getErrorMessage_kinds (fieldName : string) :
  getErrorMessage "empty" fieldName = Text ("Please enter " +:+ fieldName) /\
  getErrorMessage "negative" fieldName
  = Text (fieldName +:+ " must be a positive number") /\
  getErrorMessage "nonNumeric" fieldName
  = Text ("Please enter a valid number for " +:+ fieldName) /\
  getErrorMessage "outOfRange" fieldName
  = Text (fieldName +:+ " is out of valid range") /\
  forall validationType,
    validationType ∉ ["empty"; "negative"; "nonNumeric"; "outOfRange"] ->
    getErrorMessage validationType fieldName
    = if bool_decide
           (validationType ∈ CalorieEstimator.Object_prototype_names)
      then Member validationType
      else Text "Invalid input".
Proof.
  split; [| split; [| split; [| split]]].
  - reflexivity.
  - unfold getErrorMessage.
    change (messages fieldName !! "negative")
      with (Some (fieldName +:+ " must be a positive number")).
    now destruct fieldName.
  - reflexivity.
  - unfold getErrorMessage.
    change (messages fieldName !! "outOfRange")
      with (Some (fieldName +:+ " is out of valid range")).
    now destruct fieldName.
  - intros validationType Hk. unfold getErrorMessage, messages.
    repeat (apply not_elem_of_cons in Hk as [? Hk]).
    rewrite !lookup_insert_ne by congruence.
    rewrite lookup_singleton_ne by congruence. reflexivity.
Qed.
End ValidatorTexts.

(** ** The planner: invariants and compositions *)

Section PlannerDays.
Import WorkoutPlanner Validator PlannerRun.
Local Open Scope list_scope.

Lemma days_includes_elem (d : string) : days_includes d = true <-> d ∈ days.
Proof. unfold days_includes. apply bool_decide_eq_true. Qed.

Lemma commit_days (env : Env) (d : string) (exs : list Exercise)
    (this : Planner) :
  is_Some (weeklyPlan (this_weeklyPlan this) !! d) ->
  dom (weeklyPlan (this_weeklyPlan (commit env d exs this)))
  = dom (weeklyPlan (this_weeklyPlan this)).
Proof.
  intros Hd. cbn. rewrite dom_insert_L.
  apply subseteq_union_1_L, singleton_subseteq_l. now apply elem_of_dom.
Qed.

Lemma perform_keeps_days (env : Env) (call : Call) (this : Planner) :
  has_all_days this ->
  exists this',
    perform env call this = Some this' /\
    dom (weeklyPlan (this_weeklyPlan this'))
    = dom (weeklyPlan (this_weeklyPlan this)).
Proof.
  intros Hall. destruct call as [day n s r | day i | day i | day]; cbn [perform].
  - unfold addExercise.
    destruct (_validateExerciseInput n s r); [| eauto].
    destruct (days_includes (toLowerCase day)) eqn:Hd; cbn [negb]; [| eauto].
    apply days_includes_elem in Hd. destruct (Hall _ Hd) as [exs Hexs].
    rewrite Hexs. eexists. split; [reflexivity |]. apply commit_days. eauto.
  - unfold removeExercise.
    destruct (days_includes (toLowerCase day)) eqn:Hd; cbn [negb]; [| eauto].
    apply days_includes_elem in Hd. destruct (Hall _ Hd) as [exs Hexs].
    rewrite Hexs. destruct (list_find _ exs) as [[index ex] |]; [| eauto].
    eexists. split; [reflexivity |]. apply commit_days. eauto.
  - unfold toggleExerciseCompletion.
    destruct (days_includes (toLowerCase day)) eqn:Hd; cbn [negb]; [| eauto].
    apply days_includes_elem in Hd. destruct (Hall _ Hd) as [exs Hexs].
    rewrite Hexs. destruct (list_find _ exs) as [[index ex] |]; [| eauto].
    eexists. split; [reflexivity |]. apply commit_days. eauto.
  - unfold clearDay.
    destruct (days_includes (toLowerCase day)) eqn:Hd; cbn [negb]; [| eauto].
    apply days_includes_elem in Hd.
    eexists. split; [reflexivity |]. apply commit_days. auto.
Qed.

Lemma same_dom_all_days (this this' : Planner) :
  dom (weeklyPlan (this_weeklyPlan this'))
  = dom (weeklyPlan (this_weeklyPlan this)) ->
  has_all_days this -> has_all_days this'.
Proof.
  intros Hdom Hall day Hd. apply elem_of_dom. rewrite Hdom.
  apply elem_of_dom. now apply Hall.
Qed.

(** X3: from a planner whose plan has a sequence for each of the seven
    days, no run of add, remove, toggle and clear calls throws, and the
    plan keeps exactly the day keys it had. *)
Theorem run_keeps_seven_days (calls : list (Env * Call)) (this : Planner) :
  has_all_days this ->
  exists this',
    run calls this = Some this' /\
    has_all_days this' /\
    dom (weeklyPlan (this_weeklyPlan this'))
    = dom (weeklyPlan (this_weeklyPlan this)).
Proof.
  revert this. induction calls as [| [env call] rest IH]; intros this Hall.
  - exists this. auto.
  - destruct (perform_keeps_days env call this Hall) as (this1 & Hp & Hdom).
    cbn [run]. rewrite Hp.
    destruct (IH this1 (same_dom_all_days _ _ Hdom Hall))
      as (this' & Hrun & Hall' & Hdom').
    exists this'. split; [exact Hrun |]. split; [exact Hall' |].
    now rewrite Hdom'.
Qed.

Lemma fresh_planner_days :
  has_all_days fresh_planner /\
  dom (weeklyPlan (this_weeklyPlan fresh_planner)) = list_to_set days.
Proof.
  split.
  - intros day Hd. unfold days in Hd.
    repeat (apply elem_of_cons in Hd as [-> | Hd]; [eexists; reflexivity |]).
    now apply elem_of_nil in Hd.
  - change (dom (list_to_map ((fun d => (d, @nil Exercise)) <$> days)
                  : gmap string (list Exercise))
            = list_to_set days).
    rewrite dom_list_to_map_L. reflexivity.
Qed.
End PlannerDays.

Section PlannerAppend.
Import WorkoutPlanner Validator PlannerRun.
Local Open Scope list_scope.

(** X1: when the name, sets, reps and day checks pass and the day has a
    sequence, [addExercise] succeeds: it returns an exercise with the
    generated id, the trimmed name, [parseInt] of sets and reps and
    [completed = false], puts it at the end of that day's sequence, leaves
    every other day as it is and stamps [lastModified]. *)
Theorem addExercise_appends (env : Env)
    (day exerciseName sets reps : string) (this : Planner)
    (exercises : list Exercise) :
  isNotEmpty (JsStr exerciseName) = true ->
  isPositiveNumber sets = true ->
  isPositiveNumber reps = true ->
  days_includes (toLowerCase day) = true ->
  weeklyPlan (this_weeklyPlan this) !! toLowerCase day = Some exercises ->
  exists exercise this',
    addExercise env day exerciseName sets reps this
    = Return (Success exercise) this' /\
    exercise = {| id := generated_id env; name := trim exerciseName;
                  sets := JsNum (parseInt sets);
                  reps := JsNum (parseInt reps);
                  completed := false; addedAt := added_at env |} /\
    weeklyPlan (this_weeklyPlan this') !! toLowerCase day
    = Some (exercises ++ [exercise]) /\
    (forall other, other <> toLowerCase day ->
       weeklyPlan (this_weeklyPlan this') !! other
       = weeklyPlan (this_weeklyPlan this) !! other) /\
    lastModified (this_weeklyPlan this') = Some (modified_at env).
Proof.
  intros Hn Hs Hr Hd Hseq. eexists. eexists.
  split.
  { unfold addExercise, _validateExerciseInput.
    rewrite Hn, Hs, Hr, Hd. cbn [negb]. rewrite Hseq. reflexivity. }
  split; [reflexivity |]. cbn. split; [apply lookup_insert_eq |].
  split; [| reflexivity].
  intros other Ho. now apply lookup_insert_ne.
Qed.

End PlannerAppend.

Section PlannerCompose.
Import WorkoutPlanner Validator PlannerRun.
Local Open Scope list_scope.

(** What a successful [addExercise] tells about its inputs. *)
Lemma addExercise_success_inv (env : Env)
    (day exerciseName sets reps : string) (this this' : Planner)
    (exercise : Exercise) :
  addExercise env day exerciseName sets reps this
  = Return (Success exercise) this' ->
  isNotEmpty (JsStr exerciseName) = true /\
  isPositiveNumber sets = true /\
  isPositiveNumber reps = true /\
  days_includes (toLowerCase day) = true /\
  exists exercises,
    weeklyPlan (this_weeklyPlan this) !! toLowerCase day = Some exercises /\
    exercise = {| id := generated_id env; name := trim exerciseName;
                  sets := JsNum (parseInt sets);
                  reps := JsNum (parseInt reps);
                  completed := false; addedAt := added_at env |} /\
    this' = commit env (toLowerCase day) (exercises ++ [exercise]) this.
Proof.
  unfold addExercise, _validateExerciseInput.
  destruct (isNotEmpty (JsStr exerciseName)); cbn [negb]; [| discriminate].
  destruct (isPositiveNumber sets); cbn [negb]; [| discriminate].
  destruct (isPositiveNumber reps); cbn [negb]; [| discriminate].
  destruct (days_includes (toLowerCase day)); cbn [negb]; [| discriminate].
  destruct (weeklyPlan (this_weeklyPlan this) !! toLowerCase day)
    as [exercises |]; [| discriminate].
  intros H. injection H as <- <-. repeat split. eauto.
Qed.

(** X2: the name of an exercise that [addExercise] stored is not empty,
    is its own trimmed form, and neither starts nor ends with white
    space. *)
Theorem stored_name_is_trimmed (env : Env)
    (day exerciseName sets reps : string) (this this' : Planner)
    (exercise : Exercise) :
  addExercise env day exerciseName sets reps this
  = Return (Success exercise) this' ->
  (0 < String.length (name exercise))%nat /\
  trim (name exercise) = name exercise /\
  (forall c rest, name exercise = String c rest -> is_whitespace c = false) /\
  (forall front c,
     list_ascii_of_string (name exercise) = front ++ [c] ->
     is_whitespace c = false).
Proof.
  intros H. apply addExercise_success_inv in H
    as (Hn & _ & _ & _ & exs & _ & -> & _). cbn [name].
  split; [| split; [| split]].
  - unfold isNotEmpty in Hn. now apply Nat.ltb_lt in Hn.
  - apply trim_idem.
  - intros c rest E. pose proof (trimL_head (list_ascii_of_string exerciseName)) as Hh.
    rewrite <- trim_list, E in Hh. exact Hh.
  - intros front c E. rewrite trim_list in E.
    pose proof (trimEndL_last (trimStartL (list_ascii_of_string exerciseName))) as Hl.
    fold (trimL (list_ascii_of_string exerciseName)) in Hl.
    rewrite E, rev_app_distr in Hl. exact Hl.
Qed.

(** X4: [clearDay] returns false and changes nothing for a name that is
    not a day; for a day it returns true, leaves that day empty and every
    other day as it was, and afterwards [removeExercise] and
    [toggleExerciseCompletion] on that day return false for every id. *)
Theorem clearDay_spec (env : Env) (day : string) (this : Planner) :
  (days_includes (toLowerCase day) = false ->
   clearDay env day this = Return false this) /\
  (days_includes (toLowerCase day) = true ->
   exists this',
     clearDay env day this = Return true this' /\
     weeklyPlan (this_weeklyPlan this') !! toLowerCase day = Some [] /\
     (forall other, other <> toLowerCase day ->
        weeklyPlan (this_weeklyPlan this') !! other
        = weeklyPlan (this_weeklyPlan this) !! other) /\
     (forall env' exerciseId,
        removeExercise env' day exerciseId this' = Return false this' /\
        toggleExerciseCompletion env' day exerciseId this'
        = Return false this')).
Proof.
  unfold clearDay. split; intros Hd; rewrite Hd; cbn [negb]; [reflexivity |].
  eexists. split; [reflexivity |].
  split; [apply lookup_insert_eq |]. split.
  - intros other Ho. now apply lookup_insert_ne.
  - intros env' exerciseId.
    unfold removeExercise, toggleExerciseCompletion. rewrite Hd. cbn [negb].
    cbn [commit _saveToStorage this_weeklyPlan weeklyPlan].
    rewrite lookup_insert_eq. split; reflexivity.
Qed.

Lemma find_by_id_snoc (exerciseId : string) (exercises : list Exercise)
    (exercise : Exercise) :
  Forall (fun ex => id ex <> exerciseId) exercises ->
  id exercise = exerciseId ->
  list_find (fun ex => id ex = exerciseId) (exercises ++ [exercise])
  = Some (length exercises, exercise).
Proof.
  intros Hnone Hid. apply list_find_Some. split; [| split].
  - rewrite lookup_app_r by lia. now rewrite Nat.sub_diag.
  - exact Hid.
  - intros j ex Hj Hlt. rewrite lookup_app_l in Hj by exact Hlt.
    rewrite Forall_lookup in Hnone. now apply (Hnone j).
Qed.

(** X5: removing the exercise just added, by the id it was given, brings
    all day sequences back to what they were, provided no exercise of
    that day already had that id. *)
Theorem add_then_remove_restores (env env' : Env)
    (day exerciseName sets reps : string) (this this1 : Planner)
    (exercise : Exercise) (exercises : list Exercise) :
  weeklyPlan (this_weeklyPlan this) !! toLowerCase day = Some exercises ->
  Forall (fun ex => id ex <> generated_id env) exercises ->
  addExercise env day exerciseName sets reps this
  = Return (Success exercise) this1 ->
  exists this2,
    removeExercise env' day (id exercise) this1 = Return true this2 /\
    weeklyPlan (this_weeklyPlan this2) = weeklyPlan (this_weeklyPlan this).
Proof.
  intros Hseq Hfresh Hadd.
  apply addExercise_success_inv in Hadd
    as (_ & _ & _ & Hd & exs & Hseq' & Hex & ->).
  rewrite Hseq in Hseq'. injection Hseq' as <-.
  assert (Hid : id exercise = generated_id env) by (now rewrite Hex).
  eexists. split.
  - unfold removeExercise. rewrite Hd. cbn [negb].
    cbn [commit _saveToStorage this_weeklyPlan weeklyPlan].
    rewrite lookup_insert_eq, Hid.
    rewrite (find_by_id_snoc _ _ _ Hfresh Hid). reflexivity.
  - cbn [commit _saveToStorage this_weeklyPlan weeklyPlan].
    rewrite insert_insert_eq.
    replace (delete (length exercises) (exercises ++ [exercise]))
      with exercises.
    + now apply insert_id.
    + rewrite (delete_middle exercises [] exercise). now rewrite app_nil_r.
Qed.

End PlannerCompose.

Section PlannerIds.
Import WorkoutPlanner Validator PlannerRun.
Local Open Scope list_scope.

Lemma commit_unique_ids (env : Env) (d : string) (exs : list Exercise)
    (this : Planner) :
  unique_ids this -> NoDup (id <$> exs) -> unique_ids (commit env d exs this).
Proof.
  intros Hu Hn day exercises. cbn.
  destruct (decide (d = day)) as [<- | Hne].
  - rewrite lookup_insert_eq. now intros [= <-].
  - rewrite lookup_insert_ne by exact Hne. apply Hu.
Qed.

(** X6: if no two exercises of a day share an id, this still holds
    after any call of add, remove, toggle or clear, provided the id
    generated for an add is not yet in the day added to. *)
Theorem perform_keeps_unique_ids (env : Env) (call : Call)
    (this this' : Planner) :
  unique_ids this ->
  fresh_id env call this ->
  perform env call this = Some this' ->
  unique_ids this'.
Proof.
  intros Hu Hfresh.
  destruct call as [day n s r | day i | day i | day]; cbn [perform fresh_id] in *.
  - destruct (addExercise env day n s r this) as [[ex | err] this1 |] eqn:E;
      cbn [after]; try discriminate; intros [= <-].
    + apply addExercise_success_inv in E
        as (_ & _ & _ & _ & exs & Hseq & Hex & ->).
      apply commit_unique_ids; [exact Hu |].
      rewrite fmap_app. apply NoDup_app. split; [now apply (Hu _ _ Hseq) |].
      split; [| apply NoDup_singleton].
      intros x Hx Hin. cbn in Hin. apply list_elem_of_singleton in Hin.
      apply list_elem_of_fmap in Hx as (e & -> & He).
      specialize (Hfresh _ Hseq). rewrite Forall_forall in Hfresh.
      apply (Hfresh e He). rewrite Hin, Hex. reflexivity.
    + unfold addExercise in E.
      destruct (_validateExerciseInput n s r);
        [| injection E as _ <-; exact Hu].
      destruct (days_includes (toLowerCase day)); cbn [negb] in E;
        [| injection E as _ <-; exact Hu].
      destruct (weeklyPlan (this_weeklyPlan this) !! toLowerCase day);
        discriminate.
  - unfold removeExercise.
    destruct (days_includes (toLowerCase day)); cbn [negb];
      [| cbn; now intros [= <-]].
    destruct (weeklyPlan (this_weeklyPlan this) !! toLowerCase day)
      as [exs |] eqn:Hseq; [| discriminate].
    destruct (list_find _ exs) as [[index ex] |]; cbn; intros [= <-];
      [| exact Hu].
    apply commit_unique_ids; [exact Hu |].
    rewrite list_fmap_delete.
    eapply sublist_NoDup; [now apply (Hu _ _ Hseq) | apply sublist_delete].
  - unfold toggleExerciseCompletion.
    destruct (days_includes (toLowerCase day)); cbn [negb];
      [| cbn; now intros [= <-]].
    destruct (weeklyPlan (this_weeklyPlan this) !! toLowerCase day)
      as [exs |] eqn:Hseq; [| discriminate].
    destruct (list_find _ exs) as [[index ex] |] eqn:Hf; cbn; intros [= <-];
      [| exact Hu].
    apply commit_unique_ids; [exact Hu |].
    rewrite list_fmap_insert.
    apply list_find_Some in Hf as (Hl & _ & _).
    rewrite list_insert_id; [now apply (Hu _ _ Hseq) |].
    rewrite list_lookup_fmap, Hl. reflexivity.
  - unfold clearDay.
    destruct (days_includes (toLowerCase day)); cbn; intros [= <-];
      [| exact Hu].
    apply (commit_unique_ids env _ [] this Hu). apply NoDup_nil_2.
Qed.

(** X7: when the ids of a day are distinct, an id that [removeExercise]
    removed is gone: removing or toggling it again returns false and
    changes nothing. *)
Theorem removed_id_is_gone (env env' : Env) (day exerciseId : string)
    (this this' : Planner) :
  unique_ids this ->
  removeExercise env day exerciseId this = Return true this' ->
  removeExercise env' day exerciseId this' = Return false this' /\
  toggleExerciseCompletion env' day exerciseId this' = Return false this'.
Proof.
  intros Hu. unfold removeExercise at 1.
  destruct (days_includes (toLowerCase day)) eqn:Hd; cbn [negb];
    [| discriminate].
  destruct (weeklyPlan (this_weeklyPlan this) !! toLowerCase day)
    as [exs |] eqn:Hseq; [| discriminate].
  destruct (list_find _ exs) as [[index ex] |] eqn:Hf; [| discriminate].
  intros [= <-].
  destruct (find_by_id_split _ _ _ _ Hf)
    as (before & after & -> & Hlen & Hid & Hbefore).
  assert (Hgone : list_find (fun ex => id ex = exerciseId)
                    (delete index (before ++ ex :: after)) = None).
  { rewrite <- Hlen, delete_middle. apply list_find_None.
    apply Forall_app. split; [exact Hbefore |].
    specialize (Hu _ _ Hseq). rewrite fmap_app, fmap_cons in Hu.
    apply NoDup_app in Hu as (_ & _ & Hu). apply NoDup_cons in Hu as [Hu _].
    apply Forall_forall. intros e He Heq. apply Hu.
    rewrite Hid, <- Heq. apply list_elem_of_fmap. eauto. }
  unfold removeExercise, toggleExerciseCompletion. rewrite Hd. cbn [negb].
  cbn [commit _saveToStorage this_weeklyPlan weeklyPlan].
  rewrite lookup_insert_eq, Hgone. split; reflexivity.
Qed.

End PlannerIds.

(** ** The planner and the progress tracker *)

Section StatsSegments.
Import WorkoutPlanner Validator PlannerRun ProgressTracker.
Local Open Scope list_scope.

Lemma day_exercises_Some (m : gmap string (list Exercise)) (day : string)
    (exs : list Exercise) :
  m !! day = Some exs -> day_exercises m day = exs.
Proof. unfold day_exercises. now intros ->. Qed.

Lemma bind_insert_notin (m : gmap string (list Exercise)) (d : string)
    (exs' : list Exercise) (ds : list string) :
  d ∉ ds ->
  ds ≫= day_exercises (<[d := exs']> m) = ds ≫= day_exercises m.
Proof.
  induction ds as [| a ds IH]; intros Hd; [reflexivity |].
  rewrite !bind_cons. apply not_elem_of_cons in Hd as [Hne Hd].
  rewrite (IH Hd). unfold day_exercises at 1.
  rewrite lookup_insert_ne by exact Hne. reflexivity.
Qed.

(** Replacing the sequence of one day replaces one segment of the
    exercises as the loops visit them. *)
Lemma bind_insert_in (m : gmap string (list Exercise)) (d : string)
    (ds : list string) :
  NoDup ds -> d ∈ ds ->
  exists pre post,
    ds ≫= day_exercises m = pre ++ day_exercises m d ++ post /\
    forall exs',
      ds ≫= day_exercises (<[d := exs']> m) = pre ++ exs' ++ post.
Proof.
  induction ds as [| a ds IH]; intros Hnd Hd; [now apply elem_of_nil in Hd |].
  apply NoDup_cons in Hnd as [Ha Hnd].
  destruct (decide (a = d)) as [-> | Hne].
  - exists [], (ds ≫= day_exercises m). split; [now rewrite bind_cons |].
    intros exs'. rewrite bind_cons, (bind_insert_notin _ _ _ _ Ha).
    unfold day_exercises at 1. now rewrite lookup_insert_eq.
  - apply elem_of_cons in Hd as [-> | Hd]; [contradiction |].
    destruct (IH Hnd Hd) as (pre & post & E & E').
    exists (day_exercises m a ++ pre), post. split.
    + now rewrite bind_cons, E, <- app_assoc.
    + intros exs'. rewrite bind_cons, E', <- app_assoc.
      unfold day_exercises at 1.
      rewrite lookup_insert_ne by (intros ->; contradiction). reflexivity.
Qed.

Lemma days_NoDup : NoDup days.
Proof. apply (bool_decide_unpack (NoDup days)). vm_compute. exact I. Qed.

Lemma commit_all_exercises (env : Env) (d : string) (exs' : list Exercise)
    (this : Planner) :
  d ∈ days ->
  exists pre post,
    all_exercises (this_weeklyPlan this)
    = pre ++ day_exercises (weeklyPlan (this_weeklyPlan this)) d ++ post /\
    all_exercises (this_weeklyPlan (commit env d exs' this))
    = pre ++ exs' ++ post.
Proof.
  intros Hd.
  destruct (bind_insert_in (weeklyPlan (this_weeklyPlan this)) d days
              days_NoDup Hd) as (pre & post & E & E').
  exists pre, post. split; [exact E | apply E'].
Qed.

Lemma n_total_length (this : Planner) :
  n_total this = length (all_exercises (this_weeklyPlan this)).
Proof.
  unfold n_total, stats_of_plan. cbn [totalWorkouts].
  now rewrite count_workouts_counts.
Qed.

Lemma n_done_length (this : Planner) :
  n_done this
  = length (filter (fun ex => completed ex = true)
              (all_exercises (this_weeklyPlan this))).
Proof.
  unfold n_done, stats_of_plan. cbn [currentWeekWorkouts].
  now rewrite count_workouts_counts.
Qed.

(** X8: a successful [addExercise] raises the number of workouts the
    tracker counts in the plan by one and leaves the number of completed
    ones as it was. *)
Theorem stats_after_add (env : Env) (day exerciseName sets reps : string)
    (this this' : Planner) (exercise : Exercise) :
  addExercise env day exerciseName sets reps this
  = Return (Success exercise) this' ->
  n_total this' = S (n_total this) /\ n_done this' = n_done this.
Proof.
  intros H. apply addExercise_success_inv in H
    as (_ & _ & _ & Hd & exs & Hseq & Hex & ->).
  apply days_includes_elem in Hd.
  destruct (commit_all_exercises env _ (exs ++ [exercise]) this Hd)
    as (pre & post & E & E').
  rewrite (day_exercises_Some _ _ _ Hseq) in E.
  rewrite !n_total_length, !n_done_length, E, E'.
  rewrite !filter_app, !length_app.
  assert (Hc : completed exercise = false) by (now rewrite Hex).
  rewrite (filter_cons_False _ exercise []) by (rewrite Hc; discriminate).
  cbn. lia.
Qed.
End StatsSegments.

Section StatsAfter.
Import WorkoutPlanner Validator PlannerRun ProgressTracker.
Local Open Scope nat_scope.
Local Open Scope list_scope.

(** X9: a successful [toggleExerciseCompletion] keeps the number of
    workouts and changes the number of completed ones by exactly one: down
    when the exercise found was completed, up when it was not. *)
Theorem stats_after_toggle (env : Env) (day exerciseId : string)
    (this this' : Planner) :
  toggleExerciseCompletion env day exerciseId this = Return true this' ->
  exists exercises index exercise,
    weeklyPlan (this_weeklyPlan this) !! toLowerCase day = Some exercises /\
    list_find (fun ex => id ex = exerciseId) exercises
    = Some (index, exercise) /\
    n_total this' = n_total this /\
    (if completed exercise
     then S (n_done this') = n_done this
     else n_done this' = S (n_done this)).
Proof.
  unfold toggleExerciseCompletion.
  destruct (days_includes (toLowerCase day)) eqn:Hd; cbn [negb];
    [| discriminate].
  destruct (weeklyPlan (this_weeklyPlan this) !! toLowerCase day)
    as [exs |] eqn:Hseq; [| discriminate].
  destruct (list_find _ exs) as [[index ex] |] eqn:Hf; [| discriminate].
  intros [= <-]. exists exs, index, ex.
  split; [reflexivity |]. split; [exact Hf |].
  apply days_includes_elem in Hd.
  destruct (commit_all_exercises env _ (<[index := toggle ex]> exs) this Hd)
    as (pre & post & E & E').
  rewrite (day_exercises_Some _ _ _ Hseq) in E.
  rewrite !n_total_length, !n_done_length, E, E'.
  destruct (find_by_id_split _ _ _ _ Hf)
    as (before & after & -> & Hlen & _ & _).
  rewrite <- Hlen, <- (Nat.add_0_r (length before)), insert_app_r.
  cbn [insert list_insert].
  rewrite !filter_app, !length_app, !filter_cons. cbn [toggle completed].
  split; [cbn; lia |].
  destruct (completed ex) eqn:Hc; cbn [negb].
  - rewrite decide_False by discriminate. rewrite decide_True by reflexivity.
    cbn. lia.
  - rewrite decide_True by reflexivity. rewrite decide_False by discriminate.
    cbn. lia.
Qed.

(** X10: a successful [removeExercise] lowers the number of workouts by
    one and never raises the number of completed ones; a successful
    [clearDay] lowers the number of workouts by the length of the day's
    sequence. *)
Theorem stats_after_removal (env : Env) (day exerciseId : string)
    (this : Planner) :
  (forall this',
     removeExercise env day exerciseId this = Return true this' ->
     S (n_total this') = n_total this /\ n_done this' <= n_done this) /\
  (forall this',
     clearDay env day this = Return true this' ->
     n_total this'
     + length (default [] (weeklyPlan (this_weeklyPlan this)
                             !! toLowerCase day))
     = n_total this).
Proof.
  split; intros this'.
  - unfold removeExercise.
    destruct (days_includes (toLowerCase day)) eqn:Hd; cbn [negb];
      [| discriminate].
    destruct (weeklyPlan (this_weeklyPlan this) !! toLowerCase day)
      as [exs |] eqn:Hseq; [| discriminate].
    destruct (list_find _ exs) as [[index ex] |] eqn:Hf; [| discriminate].
    intros [= <-]. apply days_includes_elem in Hd.
    destruct (commit_all_exercises env _ (delete index exs) this Hd)
      as (pre & post & E & E').
    rewrite (day_exercises_Some _ _ _ Hseq) in E.
    rewrite !n_total_length, !n_done_length, E, E'.
    destruct (find_by_id_split _ _ _ _ Hf)
      as (before & after & -> & Hlen & _ & _).
    rewrite <- Hlen, delete_middle.
    rewrite !filter_app, !length_app, filter_cons.
    split; [cbn; lia |].
    destruct (decide (completed ex = true)); cbn; lia.
  - unfold clearDay.
    destruct (days_includes (toLowerCase day)) eqn:Hd; cbn [negb];
      [| discriminate].
    intros [= <-]. apply days_includes_elem in Hd.
    destruct (commit_all_exercises env _ [] this Hd)
      as (pre & post & E & E').
    rewrite !n_total_length, E, E'. unfold day_exercises.
    rewrite !length_app. cbn. lia.
Qed.

(** X11: for every plan, the workouts counted as done this week are at
    most the total number of workouts. *)
Theorem done_at_most_total (workoutPlan : WorkoutPlan) :
  currentWeekWorkouts (stats_of_plan workoutPlan)
  <= totalWorkouts (stats_of_plan workoutPlan).
Proof.
  unfold stats_of_plan. cbn [currentWeekWorkouts totalWorkouts].
  rewrite count_workouts_counts. cbn. apply length_filter.
Qed.

(** What the store gives back has the exercises of the plan written, in
    the same order, each as JSON gives it back. *)
Lemma json_plan_all_exercises (workoutPlan : WorkoutPlan) :
  all_exercises (Storage.json_plan workoutPlan)
  = Storage.json_exercise <$> all_exercises workoutPlan.
Proof.
  unfold all_exercises. generalize days. intros ds.
  induction ds as [| d ds IH]; [reflexivity |].
  rewrite !bind_cons, fmap_app, IH. f_equal.
  cbn [Storage.json_plan weeklyPlan]. rewrite lookup_fmap.
  now destruct (weeklyPlan workoutPlan !! d).
Qed.

Lemma json_exercises_completed (l : list Exercise) :
  length (filter (fun ex => completed ex = true)
            (Storage.json_exercise <$> l))
  = length (filter (fun ex => completed ex = true) l).
Proof.
  induction l as [| ex l IH]; [reflexivity |].
  rewrite fmap_cons, !filter_cons. cbn [Storage.json_exercise completed].
  destruct (decide (completed ex = true)); cbn [length]; now rewrite IH.
Qed.

(** The statistics do not see what JSON changes: the plan read back has
    the statistics of the plan written. *)
Lemma stats_of_json_plan (workoutPlan : WorkoutPlan) :
  stats_of_plan (Storage.json_plan workoutPlan) = stats_of_plan workoutPlan.
Proof.
  unfold stats_of_plan. rewrite !count_workouts_counts.
  cbn [c_totalWorkouts c_completedWorkouts c_currentWeekWorkouts].
  unfold completed_exercises.
  now rewrite json_plan_all_exercises, json_exercises_completed,
    length_fmap.
Qed.

(** The plan read back is not always the plan written: sets given as
    [".5"] are accepted and kept as NaN, which the store gives back as
    [null]. *)
Example nan_sets_read_back_as_null :
  exists exercise this',
    addExercise sample_env "Monday" "Squats" ".5" "10" fresh_planner
    = Return (Success exercise) this' /\
    weeklyPlan (this_weeklyPlan this') !! "monday" = Some [exercise] /\
    (exists x, sets exercise = JsNum x /\ isNaN x = true) /\
    (exists stored,
       weeklyPlan (Storage.loadWorkoutPlan (this_storage this')) !! "monday"
       = Some [stored] /\
       sets stored = JsNull /\ reps stored = JsNum 10%float /\
       id stored = id exercise /\ completed stored = completed exercise).
Proof.
  eexists. eexists. split; [vm_compute; reflexivity |].
  split; [reflexivity |]. split.
  - eexists. split; reflexivity.
  - eexists. split; [vm_compute; reflexivity |]. repeat split.
Qed.

(** X12: after a call that wrote to a store accepting the write, the
    statistics the tracker computes from the plan it reads back from the
    store are those of the planner's plan (or the call changed nothing),
    although the store holds the plan as JSON gives it back; when the
    store refuses the write, what it holds stays as it was. *)
Theorem tracker_follows_storage (env : Env) (call : Call)
    (this this' : Planner) :
  perform env call this = Some this' ->
  (save_ok env = true ->
   this' = this \/
   _getWorkoutHistory (this_storage this')
   = stats_of_plan (this_weeklyPlan this')) /\
  (save_ok env = false -> this_storage this' = this_storage this).
Proof.
  assert (Hc : forall d exs,
            (save_ok env = true ->
             commit env d exs this = this \/
             _getWorkoutHistory (this_storage (commit env d exs this))
             = stats_of_plan (this_weeklyPlan (commit env d exs this))) /\
            (save_ok env = false ->
             this_storage (commit env d exs this) = this_storage this)).
  { intros d exs. unfold commit, _saveToStorage, Storage.saveWorkoutPlan.
    cbn [this_weeklyPlan this_storage].
    split; intros ->; [right |]; [| reflexivity].
    unfold _getWorkoutHistory, Storage.loadWorkoutPlan.
    cbn [Storage.workout_plan default from_option Datatypes.id].
    apply stats_of_json_plan. }
  assert (Hi : (save_ok env = true ->
                this = this \/
                _getWorkoutHistory (this_storage this)
                = stats_of_plan (this_weeklyPlan this)) /\
               (save_ok env = false -> this_storage this = this_storage this))
    by (split; auto).
  destruct call as [day n s r | day i | day i | day]; cbn [perform].
  - unfold addExercise.
    destruct (_validateExerciseInput n s r); [| cbn; now intros [= <-]].
    destruct (days_includes (toLowerCase day)); cbn [negb];
      [| cbn; now intros [= <-]].
    destruct (weeklyPlan (this_weeklyPlan this) !! toLowerCase day);
      cbn; [| discriminate].
    intros [= <-]. apply Hc.
  - unfold removeExercise.
    destruct (days_includes (toLowerCase day)); cbn [negb];
      [| cbn; now intros [= <-]].
    destruct (weeklyPlan (this_weeklyPlan this) !! toLowerCase day)
      as [exs |]; [| discriminate].
    destruct (list_find _ exs) as [[index ex] |]; cbn; intros [= <-];
      [apply Hc | exact Hi].
  - unfold toggleExerciseCompletion.
    destruct (days_includes (toLowerCase day)); cbn [negb];
      [| cbn; now intros [= <-]].
    destruct (weeklyPlan (this_weeklyPlan this) !! toLowerCase day)
      as [exs |]; [| discriminate].
    destruct (list_find _ exs) as [[index ex] |]; cbn; intros [= <-];
      [apply Hc | exact Hi].
  - unfold clearDay.
    destruct (days_includes (toLowerCase day)); cbn; intros [= <-];
      [apply Hc | exact Hi].
Qed.
End StatsAfter.

(** ** Instances *)

Section Instances.
Import WorkoutPlanner Validator ValidatorMore PlannerRun ProgressTracker.
Local Open Scope nat_scope.
Local Open Scope list_scope.

Lemma fresh_planner_day (day : string) (exercises : list Exercise) :
  weeklyPlan (this_weeklyPlan fresh_planner) !! day = Some exercises ->
  exercises = [].
Proof.
  intros H.
  change (this_weeklyPlan fresh_planner) with Storage.default_plan in H.
  unfold Storage.default_plan in H. cbn [weeklyPlan] in H.
  apply elem_of_list_to_map_2 in H.
  apply list_elem_of_fmap in H as (d & [= _ ->] & _). reflexivity.
Qed.

Lemma fresh_planner_unique_ids : unique_ids fresh_planner.
Proof.
  intros day exercises H. apply fresh_planner_day in H as ->.
  apply NoDup_nil_2.
Qed.

Lemma squats_planner_unique_ids : unique_ids squats_planner.
Proof.
  apply commit_unique_ids; [apply fresh_planner_unique_ids |].
  apply NoDup_singleton.
Qed.

(** X1 on the scenario: Squats is appended to the empty Monday. *)
Lemma addExercise_appends_witness :
  exists exercise this',
    addExercise sample_env "Monday" "Squats" "3" "10" fresh_planner
    = Return (Success exercise) this' /\
    weeklyPlan (this_weeklyPlan this') !! "monday" = Some [exercise] /\
    completed exercise = false.
Proof.
  destruct (addExercise_appends sample_env "Monday" "Squats" "3" "10"
              fresh_planner [])
    as (exercise & this' & H1 & H2 & H3 & _); try reflexivity.
  exists exercise, this'. split; [exact H1 |]. split; [exact H3 |].
  rewrite H2. reflexivity.
Defined.

(** X2 on a name typed with spaces around it. *)
Lemma stored_name_is_trimmed_witness :
  exists exercise this',
    addExercise sample_env "Tuesday" "  Bench press  " "3" "8" fresh_planner
    = Return (Success exercise) this' /\
    name exercise = "Bench press" /\
    trim (name exercise) = name exercise.
Proof.
  destruct (addExercise sample_env "Tuesday" "  Bench press  " "3" "8"
              fresh_planner) as [[exercise | error] this' |] eqn:E;
    try (vm_compute in E; discriminate).
  exists exercise, this'. split; [reflexivity |].
  split; [vm_compute in E; injection E as <- _; reflexivity |].
  apply (stored_name_is_trimmed _ _ _ _ _ _ _ _ E).
Defined.

(** X3 on the sample run from the fresh planner. *)
Lemma run_keeps_seven_days_witness :
  exists this',
    run sample_calls fresh_planner = Some this' /\
    has_all_days this' /\
    dom (weeklyPlan (this_weeklyPlan this'))
    = dom (weeklyPlan (this_weeklyPlan fresh_planner)).
Proof.
  exact (run_keeps_seven_days sample_calls fresh_planner
           (proj1 fresh_planner_days)).
Defined.

(** X5 on the scenario: adding Squats and removing it again. *)
Lemma add_then_remove_restores_witness :
  exists this2,
    removeExercise sample_env "monday" (id squats) squats_planner
    = Return true this2 /\
    weeklyPlan (this_weeklyPlan this2)
    = weeklyPlan (this_weeklyPlan fresh_planner).
Proof.
  apply (add_then_remove_restores sample_env sample_env "monday" "Squats"
           "3" "10" fresh_planner squats_planner squats []).
  - reflexivity.
  - apply Forall_nil_2.
  - vm_compute. reflexivity.
Defined.

(** X6 on the first add to the fresh planner. *)
Lemma perform_keeps_unique_ids_witness : unique_ids squats_planner.
Proof.
  apply (perform_keeps_unique_ids sample_env
           (CallAdd "Monday" "Squats" "3" "10") fresh_planner squats_planner).
  - apply fresh_planner_unique_ids.
  - intros exercises H. apply fresh_planner_day in H as ->.
    apply Forall_nil_2.
  - vm_compute. reflexivity.
Defined.

(** X7 on the scenario: once Squats is removed, its id is refused. *)
Lemma removed_id_is_gone_witness :
  exists this',
    removeExercise sample_env "Monday" (id squats) squats_planner
    = Return true this' /\
    removeExercise sample_env "Monday" (id squats) this' = Return false this' /\
    toggleExerciseCompletion sample_env "Monday" (id squats) this'
    = Return false this'.
Proof.
  destruct (removeExercise sample_env "Monday" (id squats) squats_planner)
    as [[|] this' |] eqn:E; try (vm_compute in E; discriminate).
  exists this'. split; [reflexivity |].
  apply (removed_id_is_gone sample_env sample_env "Monday" (id squats)
           squats_planner this' squats_planner_unique_ids E).
Defined.

(** X8 on the scenario: one exercise more, none completed. *)
Lemma stats_after_add_witness :
  n_total squats_planner = S (n_total fresh_planner) /\
  n_done squats_planner = n_done fresh_planner.
Proof.
  apply (stats_after_add sample_env "Monday" "Squats" "3" "10"
           fresh_planner squats_planner squats).
  vm_compute. reflexivity.
Defined.

(** X9 on the scenario: ticking Squats makes one completed exercise. *)
Lemma stats_after_toggle_witness :
  exists this',
    toggleExerciseCompletion sample_env "Monday" (id squats) squats_planner
    = Return true this' /\
    n_total this' = n_total squats_planner /\
    n_done this' = S (n_done squats_planner).
Proof.
  destruct (toggleExerciseCompletion sample_env "Monday" (id squats)
              squats_planner) as [[|] this' |] eqn:E;
    try (vm_compute in E; discriminate).
  exists this'. split; [reflexivity |].
  destruct (stats_after_toggle sample_env "Monday" (id squats)
              squats_planner this' E)
    as (exercises & index & exercise & Hseq & Hfind & Ht & Hd).
  split; [exact Ht |].
  assert (Hm : weeklyPlan (this_weeklyPlan squats_planner)
               !! toLowerCase "Monday" = Some [squats]) by reflexivity.
  rewrite Hm in Hseq. injection Hseq as <-.
  assert (Hf : list_find (fun ex => id ex = id squats) [squats]
               = Some (0, squats)) by reflexivity.
  rewrite Hf in Hfind. injection Hfind as _ <-.
  exact Hd.
Defined.

(** X12 on the first add, with a store that accepts the write. *)
Lemma tracker_follows_storage_witness :
  squats_planner = fresh_planner \/
  _getWorkoutHistory (this_storage squats_planner)
  = stats_of_plan (this_weeklyPlan squats_planner).
Proof.
  apply (tracker_follows_storage sample_env
           (CallAdd "Monday" "Squats" "3" "10") fresh_planner squats_planner).
  - vm_compute. reflexivity.
  - reflexivity.
Defined.

End Instances.

Section InstancesForms.
Import Validator ValidatorMore BMICalculator BMIForm CalorieEstimator.
Local Open Scope float_scope.

(** X17 on 70 kg at 5 ft: 12 inches is refused, -1 is refused, and with
    7 inches the result shown is 24.2, Normal. *)
Lemma bmi_form_inches_witness :
  _handleCalculate (Some "70") (Some "kg") (Some "5") (Some "ft") (Some "12")
  = ShowError
      (Text "Inches must be less than 12 (use feet for values 12 and above)")
  /\
  _handleCalculate (Some "70") (Some "kg") (Some "5") (Some "ft") (Some "-1")
  = ShowError (Text "Inches must be a positive number") /\
  (_handleCalculate (Some "70") (Some "kg") (Some "5") (Some "ft") (Some "7")
   = let result := calculateBMI 70 "kg" 5 "ft" 7 in
     DisplayResult (bmi result) (category result)) /\
  _handleCalculate (Some "70") (Some "kg") (Some "5") (Some "ft") (Some "7")
  = DisplayResult 24.2 Normal.
Proof.
  split; [| split; [| split]].
  - apply (bmi_form_inches (Some "70") (Some "kg") (Some "5") "12");
      (reflexivity || discriminate).
  - apply (bmi_form_inches (Some "70") (Some "kg") (Some "5") "-1");
      (reflexivity || discriminate).
  - apply (bmi_form_inches (Some "70") (Some "kg") (Some "5") "7");
      (reflexivity || discriminate).
  - vm_compute. reflexivity.
Defined.

(** X18 for the key toString. *)
Lemma inherited_key_poisons_targets_witness :
  isNaN (maintenance (calculateCalories 30 (JsStr "female") 60 "kg" 165 "cm"
                        "toString" 0)) = true.
Proof.
  apply (inherited_key_poisons_targets 30 (JsStr "female") 60 "kg" 165 "cm"
           "toString" 0).
  unfold Object_prototype_names. set_solver.
Defined.

(** X19 on 20 and 27: Normal is not above Overweight. *)
Lemma category_monotone_witness :
  (20 <=? 27) = true /\
  (rank (_determineBMICategory 20) <= rank (_determineBMICategory 27))%nat.
Proof.
  split; [reflexivity | apply (category_monotone 20 27); reflexivity].
Defined.

(** X21 on a five-letter name with lengths 1 to 10. *)
Lemma hasValidLength_not_empty_witness :
  hasValidLength (JsStr "hello") 1 10 = true /\
  isNotEmpty (JsStr "hello") = true.
Proof.
  split; [reflexivity |].
  apply (hasValidLength_not_empty (JsStr "hello") 1 10); reflexivity.
Defined.

End InstancesForms.
